(** * stranal_app.utility: schema generation, validation, export, import

    A shallow embedding of [src/stranal_app/utility.py].  Python dictionaries
    that are only looked up (a generated schema, a rule-set, the attributes
    of a model instance) are finite maps; dictionaries whose insertion order
    is observable (an exported mapping, a submitted document) are
    association lists.  Exceptions are the [Raise] branch of [result]. *)

From Stdlib Require Import ZArith.
From stdpp Require Import base decidable option list strings gmap fin_maps.

#[local] Set Warnings "-register-all,-clear-no-such-hyp".
Local Open Scope Z_scope.
Local Open Scope string_scope.
Local Open Scope list_scope.

(** ** Exceptions and results *)

Inductive exn : Type :=
| LookupError (msg : string)
| RuntimeError (msg : string)
| ValueError (msg : string)
| AttributeError (msg : string)
| OtherError (msg : string).

Inductive result (A : Type) : Type :=
| Ok (a : A)
| Raise (e : exn).

Arguments Ok {A} a.
Arguments Raise {A} e.

Definition bind {A B : Type} (r : result A) (k : A -> result B) : result B :=
  match r with
  | Ok a => k a
  | Raise e => Raise e
  end.

Notation "x <- r ;; k" := (bind r (fun x => k))
  (at level 100, r at next level, right associativity).

Definition is_ok {A : Type} (r : result A) : bool :=
  match r with Ok _ => true | Raise _ => false end.

(** ** Python values *)

(** The values that travel through the module: [None], scalars, an opaque
    object that is none of int, str, bool (a float, a date, a callable, an
    SQL expression), lists and insertion-ordered dictionaries. *)
Inductive value : Type :=
| VNone
| VBool (b : bool)
| VInt (n : Z)
| VStr (s : string)
| VOpaque (repr : string)
| VList (items : list value)
| VDict (items : list (string * value)).

(** [isinstance(v, (int, str, bool))] *)
Definition is_int_str_bool (v : value) : bool :=
  match v with
  | VBool _ | VInt _ | VStr _ => true
  | _ => false
  end.

(** [v is None] *)
Definition is_none (v : value) : bool :=
  match v with VNone => true | _ => false end.

(** [name in seq] for a tuple, list or set of names. *)
Definition py_in (name : string) (seq : list string) : bool :=
  bool_decide (name ∈ seq).

(** [d[key] = v] on an insertion-ordered dictionary: an existing key keeps
    its position, a new key goes last. *)
Fixpoint dict_set {A : Type} (key : string) (v : A) (d : list (string * A))
  : list (string * A) :=
  match d with
  | [] => [(key, v)]
  | (k, w) :: rest =>
      if bool_decide (k = key) then (k, v) :: rest
      else (k, w) :: dict_set key v rest
  end.

(** [d.get(key)] *)
Fixpoint dict_get {A : Type} (key : string) (d : list (string * A)) : option A :=
  match d with
  | [] => None
  | (k, w) :: rest => if bool_decide (k = key) then Some w else dict_get key rest
  end.

(** The keys of a dictionary, in order. *)
Definition dict_keys {A : Type} (d : list (string * A)) : list string := d.*1.

(** ** Columns and mappers *)

(** [column.type.python_type] *)
Inductive python_type : Type :=
| py_int | py_str | py_bool | py_date | py_datetime
| py_float | py_decimal | py_bytes | py_time | py_timedelta
| py_dict | py_list | py_uuid.

#[global] Instance python_type_eq_dec : EqDecision python_type.
Proof. solve_decision. Defined.

(** [ColumnDefault.arg]: a scalar, a callable or an SQL expression. *)
Inductive default_arg : Type :=
| ArgScalar (v : value)
| ArgCallable
| ArgClause.

(** [column.default]: [None], a [ColumnDefault] carrying [arg], or a
    [Sequence], which has no [arg] attribute. *)
Inductive default_generator : Type :=
| NoDefault
| ColumnDefault (arg : default_arg)
| SequenceDefault.

Record column : Type := Column {
  column_name : string;
  column_python_type : python_type;
  column_type_length : option Z;
  column_primary_key : bool;
  column_nullable : bool;
  column_default : default_generator;
  column_server_default : option string;
  column_unique : option bool;
}.

(** [column.default is None] *)
Definition default_is_none (d : default_generator) : bool :=
  match d with NoDefault => true | _ => false end.

(** Truthiness of [column.unique] ([None], [False] or [True]). *)
Definition unique_truthy (u : option bool) : bool :=
  match u with Some true => true | _ => false end.

(** [schema_type_conversions] *)
Definition schema_type_conversions : list (python_type * string) :=
  [ (py_int, "integer");
    (py_str, "string");
    (py_bool, "boolean");
    (py_date, "string");
    (py_datetime, "string") ].

(** [schema_type_conversions.get(python_type)] *)
Fixpoint conversions_get (t : python_type) (table : list (python_type * string))
  : option string :=
  match table with
  | [] => None
  | (k, v) :: rest => if bool_decide (k = t) then Some v else conversions_get t rest
  end.

(** ** generate_schema *)

Definition unable_to_determine : string := "Unable to determine the column type".

(** The body of the loop of [generate_schema] for one selected column: the
    rule-set [prop], or the [LookupError] of line 199. *)
Definition column_rules (exclude_rules : list string) (c : column)
  : result (gmap string value) :=
  let python_type := column_python_type c in
  match conversions_get python_type schema_type_conversions with
  | None => Raise (LookupError unable_to_determine)
  | Some t =>
      let prop : gmap string value := {[ "type" := VStr t ]} in
      let prop :=
        if negb (py_in "readonly" exclude_rules)
           && bool_decide (python_type = py_str)
           && bool_decide (column_type_length c ≠ None)
        then <["maxlength" := from_option VInt VNone (column_type_length c)]> prop
        else prop in
      let prop :=
        if negb (py_in "readonly" exclude_rules) && column_primary_key c
        then <["readonly" := VBool true]> prop else prop in
      let prop :=
        if negb (py_in "required" exclude_rules)
           && default_is_none (column_default c)
           && bool_decide (column_server_default c = None)
           && negb (column_nullable c)
           && negb (column_primary_key c)
        then <["required" := VBool true]> prop else prop in
      let prop :=
        if negb (py_in "unique" exclude_rules) && unique_truthy (column_unique c)
        then <["unique" := VBool true]> prop else prop in
      Ok prop
  end.

(** The two [continue] tests at the head of the loop, negated: the column
    goes into the schema. *)
Definition selected (include exclude : list string) (name : string) : bool :=
  negb (bool_decide (0 < length include)%nat && negb (py_in name include))
  && negb (py_in name exclude).

Fixpoint generate_schema_loop (include exclude exclude_rules : list string)
  (columns : list column) (schema : gmap string (gmap string value))
  : result (gmap string (gmap string value)) :=
  match columns with
  | [] => Ok schema
  | c :: rest =>
      let name := column_name c in
      if selected include exclude name then
        prop <- column_rules exclude_rules c ;;
        generate_schema_loop include exclude exclude_rules rest (<[name := prop]> schema)
      else generate_schema_loop include exclude exclude_rules rest schema
  end.

(** [inspect(model_class)]: the mapper, of which the module reads the
    collection [mapper.c] ([__mapper__.columns]): the columns it yields
    when it is gone through, and the attribute keys it holds them under,
    which is what [key in mapper.c] tests.  A key is the name of the class
    attribute, a column's name the one the table gives it; the two differ
    for a column declared under another attribute name.  The relationships
    of a class are kept with the instance, next to the attribute each one
    names (see [model_of]). *)
Record mapper : Type := Mapper {
  mapper_c : list column;
  mapper_c_keys : list string;
}.

(** [generate_schema(model_class, include, exclude, exclude_rules)];
    [exclude_rules] is [None] by default and [exclude_rules or []] is used. *)
Definition generate_schema (model_class : mapper) (include exclude : list string)
  (exclude_rules : option (list string)) : result (gmap string (gmap string value)) :=
  let exclude_rules := default [] exclude_rules in
  generate_schema_loop include exclude exclude_rules (mapper_c model_class) ∅.

(** The entity of the specification's scenarios. *)
Definition id_column : column :=
  Column "id" py_int None true false NoDefault None None.
Definition email_column : column :=
  Column "email" py_str (Some 120) false false NoDefault None (Some true).
Definition active_column : column :=
  Column "active" py_bool None false true (ColumnDefault (ArgScalar (VBool false))) None None.

Definition User : mapper :=
  Mapper [id_column; email_column; active_column] ["id"; "email"; "active"].

(** An entity with a float column between two supported ones. *)
Definition price_column : column :=
  Column "price" py_float None false true NoDefault None None.
Definition Product : mapper :=
  Mapper [id_column; price_column; active_column] ["id"; "price"; "active"].

(** Reading a generated schema: the value of [schema[field][rule]], or
    [None] when the field, the rule or the schema itself is missing. *)
Definition schema_rule (r : result (gmap string (gmap string value)))
  (field rule : string) : option value :=
  match r with
  | Ok schema => prop ← schema !! field; prop !! rule
  | Raise _ => None
  end.

Definition from_ok {A : Type} (d : A) (r : result A) : A :=
  match r with Ok a => a | Raise _ => d end.

Definition user_schema : gmap string (gmap string value) :=
  from_ok ∅ (generate_schema User [] [] None).


(** What [required] is read from, as a proposition. *)
Definition required_by_column (exclude_rules : list string) (c : column) : Prop :=
  ("required" ∉ exclude_rules)
  /\ column_default c = NoDefault
  /\ column_server_default c = None
  /\ column_nullable c = false
  /\ column_primary_key c = false.

(** ** Model instances *)

(** A mapped instance as the module sees it: its class's mapper, whether
    [inspect(obj).persistent] holds, what reading each of its attributes
    yields, the keys in [inspect(obj).unloaded], the relationships of
    [__mapper__.relationships] in order, each key with the object
    [getattr(obj, key)] holds, and the [export_data] method when the class
    defines one, as a function of its [include] and [exclude] arguments,
    both empty when it is called without arguments.

    Reading an attribute yields a value ([None] for a mapped attribute
    that was never set) or raises, as an expired attribute of a detached
    instance does; a name that is no attribute of the instance has no
    entry. *)
Record model_of (O : Type) : Type := Model {
  model_mapper : mapper;
  model_persistent : bool;
  model_attrs : gmap string (result value);
  model_unloaded : list string;
  model_relationships : list (string * O);
  model_export_data : option (list string -> list string -> result value);
}.

Arguments Model {O}.
Arguments model_mapper {O}.
Arguments model_persistent {O}.
Arguments model_attrs {O}.
Arguments model_unloaded {O}.
Arguments model_relationships {O}.
Arguments model_export_data {O}.

(** The objects [ExportData.__call__] can be handed: [None], an object
    that is no list and that [inspect] does not accept
    (NoInspectionAvailable), a list ([list] or [InstrumentedList]), or a
    mapped instance.  An instance holds the objects of its relationships,
    so that a value of this type is the unfolding of what is reached from
    it; instances that reach themselves through loaded relationships have
    no such unfolding, and on them [__call__], which keeps no record of
    the instances it has visited, returns nothing. *)
Inductive pyobj : Type :=
| ONone
| ORaw (v : value)
| OList (items : list pyobj)
| OModel (m : model_of pyobj).

(** Induction on objects, through the lists and relationships they hold. *)
Section PyobjInd.
Context (P : pyobj -> Prop).
Context (HNone : P ONone) (HRaw : forall v, P (ORaw v)).
Context (HList : forall items, Forall P items -> P (OList items)).
Context (HModel : forall m, Forall (fun kr => P kr.2) (model_relationships m) ->
                            P (OModel m)).

Fixpoint pyobj_nested_ind (o : pyobj) : P o :=
  match o with
  | ONone => HNone
  | ORaw v => HRaw v
  | OList items =>
      HList items
        ((fix all (l : list pyobj) : Forall P l :=
            match l with
            | [] => List.Forall_nil P
            | x :: l' => List.Forall_cons P x l' (pyobj_nested_ind x) (all l')
            end) items)
  | OModel m =>
      HModel m
        ((fix all (l : list (string * pyobj)) : Forall (fun kr => P kr.2) l :=
            match l with
            | [] => List.Forall_nil _
            | kr :: l' => List.Forall_cons _ kr l' (pyobj_nested_ind kr.2) (all l')
            end) (model_relationships m))
  end.

End PyobjInd.

Definition no_such_attribute : string := "object has no such attribute".

(** [getattr(obj, name)]: what reading the attribute yields, and
    AttributeError for a name that is no attribute. *)
Definition getattr {O : Type} (m : model_of O) (name : string) : result value :=
  match model_attrs m !! name with
  | Some r => r
  | None => Raise (AttributeError no_such_attribute)
  end.

(** [setattr(obj, key, v)] *)
Definition setattr {O : Type} (m : model_of O) (key : string) (v : value) : model_of O :=
  Model (model_mapper m) (model_persistent m) (<[key := Ok v]> (model_attrs m))
        (model_unloaded m) (model_relationships m) (model_export_data m).

(** ** import_into_sqla_object *)

(** [key in mapper.c]: the collection is asked for a key. *)
Definition in_mapper_c (key : string) (mp : mapper) : bool :=
  py_in key (mapper_c_keys mp).

(** The loop [for key in data] over the keys that are left. *)
Fixpoint import_loop {O : Type} (mp : mapper) (data : list (string * value))
  (keys : list string) (model_instance : model_of O) : model_of O :=
  match keys with
  | [] => model_instance
  | key :: rest =>
      if in_mapper_c key mp
      then import_loop mp data rest
             (setattr model_instance key (default VNone (dict_get key data)))
      else import_loop mp data rest model_instance
  end.

Definition import_into_sqla_object {O : Type} (model_instance : model_of O)
  (data : list (string * value)) : model_of O :=
  let mp := model_mapper model_instance in
  import_loop mp data (dict_keys data) model_instance.

(** ** ExportData *)

(** [_get_column_default(c)] *)
Definition _get_column_default (c : column) : value :=
  match column_default c with
  | ColumnDefault (ArgScalar v) => if is_int_str_bool v then v else VNone
  | _ => VNone
  end.

(** Truthiness of a value and of an object. *)
Definition value_truthy (v : value) : bool :=
  match v with
  | VNone => false
  | VBool b => b
  | VInt n => negb (Z.eqb n 0)
  | VStr s => negb (bool_decide (s = ""))
  | VOpaque _ => true
  | VList items => negb (bool_decide (items = []))
  | VDict items => negb (bool_decide (items = []))
  end.

Definition truthy (o : pyobj) : bool :=
  match o with
  | ONone => false
  | ORaw v => value_truthy v
  | OList items => negb (bool_decide (items = []))
  | OModel _ => true
  end.

(** The [export_data] attribute of an object, when it has one. *)
Definition export_data_of (o : pyobj)
  : option (list string -> list string -> result value) :=
  match o with
  | OModel m => model_export_data m
  | _ => None
  end.

(** [hasattr(o, "export_data")] *)
Definition has_export_data (o : pyobj) : bool :=
  bool_decide (is_Some (export_data_of o)).

Definition no_export_data : string := "object has no attribute 'export_data'".
Definition pass_a_valid_instance : string :=
  "Pass a valid SQLAlchemy mapped class instance".

(** [[item.export_data(include, exclude) for item in obj]]: an item without
    the method raises AttributeError, and so may the method itself. *)
Fixpoint custom_exports (items : list pyobj) (include exclude : list string)
  : result (list value) :=
  match items with
  | [] => Ok []
  | item :: rest =>
      match export_data_of item with
      | None => Raise (AttributeError no_export_data)
      | Some export_data =>
          v <- export_data include exclude ;;
          vs <- custom_exports rest include exclude ;;
          Ok (v :: vs)
      end
  end.

(** [[self(item, include, exclude) for item in obj]], [self] being [rec]. *)
Definition export_each (rec : pyobj -> result value)
  : list pyobj -> result (list value) :=
  fix each items :=
    match items with
    | [] => Ok []
    | item :: rest => v <- rec item ;; vs <- each rest ;; Ok (v :: vs)
    end.

(** The test of line 98. *)
Definition column_selected (include exclude : list string) (name : string) : bool :=
  (bool_decide (include = []) || py_in name include) && negb (py_in name exclude).

(** The loop over the columns (lines 95-107). *)
Fixpoint export_columns (obj : model_of pyobj) (persisted : bool)
  (include exclude : list string) (columns : list column)
  (data : list (string * value)) : result (list (string * value)) :=
  match columns with
  | [] => Ok data
  | c :: rest =>
      let name := column_name c in
      if column_selected include exclude name then
        column_value <- getattr obj name ;;
        export_columns obj persisted include exclude rest
          (dict_set name
             (if persisted then column_value
              else if is_none column_value then _get_column_default c
              else column_value)
             data)
      else export_columns obj persisted include exclude rest data
  end.

(** The loop over the relationship keys (lines 116-125); [rec] is
    [self(rproperty)], called with the default [include] and [exclude]. *)
Definition export_relationships (rec : pyobj -> result value)
  (unloaded_relationships exclude : list string)
  : list (string * pyobj) -> list (string * value) -> result (list (string * value)) :=
  fix loop relationships data :=
    match relationships with
    | [] => Ok data
    | (key, rproperty) :: rest =>
        if negb (py_in key unloaded_relationships) && negb (py_in key exclude) then
          let data := dict_set key VNone data in
          match export_data_of rproperty with
          | Some export_data =>
              v <- export_data [] [] ;;
              loop rest (dict_set key v data)
          | None =>
              if truthy rproperty then
                v <- rec rproperty ;;
                loop rest (dict_set key v data)
              else loop rest data
          end
        else loop rest data
    end.

(** An [ExportData] object: its global exclusion list. *)
Record ExportData : Type := { self_exclude : list string }.

(** [ExportData.__call__(self, obj, include, exclude)] *)
Fixpoint ExportData_call (self : ExportData) (obj : pyobj)
  (include exclude : list string) {struct obj} : result value :=
  match obj with
  | OList items =>
      match custom_exports items include exclude with
      | Ok vs => Ok (VList vs)
      | Raise (AttributeError msg) =>
          if has_export_data (default ONone (head items))
          then Raise (AttributeError msg)
          else
            vs <- export_each (fun item => ExportData_call self item include exclude) items ;;
            Ok (VList vs)
      | Raise e => Raise e
      end
  | OModel m =>
      let persisted := model_persistent m in
      let columns := mapper_c (model_mapper m) in
      let exclude := exclude ++ self_exclude self in
      data <- export_columns m persisted include exclude columns [] ;;
      if persisted then
        data <- export_relationships (fun rproperty => ExportData_call self rproperty [] [])
                  (model_unloaded m) exclude (model_relationships m) data ;;
        Ok (VDict data)
      else Ok (VDict data)
  | ONone | ORaw _ => Raise (ValueError pass_a_valid_instance)
  end.

(** [export_from_sqla_object = ExportData(exclude=("org_id",))] *)
Definition export_from_sqla_object : pyobj -> list string -> list string -> result value :=
  ExportData_call {| self_exclude := ["org_id"] |}.

(** The attributes of an instance on which every read yields a value. *)
Definition attrs_of (values : list (string * value)) : gmap string (result value) :=
  list_to_map (prod_map id Ok <$> values).

(** An unpersisted [User()] on which nothing was set. *)
Definition new_user : model_of pyobj :=
  Model User false (attrs_of [("id", VNone); ("email", VNone); ("active", VNone)])
    [] [] None.

(** The value the column loop emits for column [c], whose attribute reads
    [column_value]. *)
Definition column_export (persisted : bool) (c : column) (column_value : value) : value :=
  if persisted then column_value
  else if is_none column_value then _get_column_default c
  else column_value.

(** The value the relationship loop leaves under a key it visits. *)
Definition relationship_export (rec : pyobj -> result value) (rproperty : pyobj)
  : result value :=
  match export_data_of rproperty with
  | Some export_data => export_data [] []
  | None => if truthy rproperty then rec rproperty else Ok VNone
  end.

(** Every column of the instance's class can be read on it. *)
Definition readable (m : model_of pyobj) : bool :=
  forallb (fun c => is_ok (getattr m (column_name c))) (mapper_c (model_mapper m)).

(** Objects the generic path exports without raising: mapped instances
    and lists of them, none with an [export_data] of its own, on which the
    columns can be read, and whose relationships hold such an instance,
    such a list, or an object that is not exported because it is falsy
    ([None], an empty list). *)
Fixpoint generic (o : pyobj) : bool :=
  match o with
  | ONone | ORaw _ => false
  | OList items => forallb generic items
  | OModel m =>
      match model_export_data m with
      | None =>
          readable m
          && forallb (fun kr : string * pyobj => negb (truthy kr.2) || generic kr.2)
               (model_relationships m)
      | Some _ => false
      end
  end.

(** A persisted user without an address: [active] is exported as [None],
    not as its default [False]. *)
Definition stored_user : model_of pyobj :=
  Model User true (attrs_of [("id", VInt 3); ("email", VNone); ("active", VNone)])
    [] [] None.

(** An entity with a tenant column, and a persisted instance of it. *)
Definition org_id_column : column :=
  Column "org_id" py_int None false false NoDefault None None.
Definition name_column : column :=
  Column "name" py_str (Some 50) false true NoDefault None None.
Definition Account : mapper :=
  Mapper [id_column; org_id_column; name_column] ["id"; "org_id"; "name"].

Definition account : model_of pyobj :=
  Model Account true
    (attrs_of [("id", VInt 1); ("org_id", VInt 1); ("name", VStr "ann")])
    [] [] None.

(** A class that maps its column [id] under the attribute [ident], and a
    persisted instance of it. *)
Definition Ticket : mapper := Mapper [id_column; name_column] ["ident"; "name"].

Definition ticket : model_of pyobj :=
  Model Ticket true (attrs_of [("ident", VInt 4); ("name", VStr "t")]) [] [] None.

(** An author with a to-many relationship [posts], a to-one relationship
    [profile] and a relationship [drafts] that is not loaded. *)
Definition Author : mapper := Mapper [id_column; name_column] ["id"; "name"].
Definition Post : mapper := Mapper [id_column; name_column] ["id"; "name"].

Definition post (id : Z) (title : string) : model_of pyobj :=
  Model Post true (attrs_of [("id", VInt id); ("name", VStr title)]) [] [] None.

Definition author (posts profile : pyobj) : model_of pyobj :=
  Model Author true (attrs_of [("id", VInt 1); ("name", VStr "ann")])
    ["drafts"]
    [("posts", posts); ("profile", profile); ("drafts", OList [OModel (post 9 "draft")])]
    None.

(** ** Validator *)

(** The identity of a persisted object, as [is] compares it. *)
Definition object_id : Type := nat.

(** An entry of the validator's error list: the message of line 259,
    [f"Must be unique, but '{value}' already exist"], kept with its value,
    or a message of the base class. *)
Inductive error_message : Type :=
| MustBeUnique (v : value)
| BaseError (msg : string).

(** A [Validator]: the schema, [model_class] reduced to what the module
    asks of it, the first instance whose [field] equals [value]
    ([model_class.query.filter_by(...).first()]), a query that may raise,
    the instance [validate] was given ([self.model]), the base class's
    [update] flag and its error list. *)
Record Validator : Type := {
  validator_schema : gmap string (gmap string value);
  model_class : option (string -> value -> result (option object_id));
  validator_model : option object_id;
  validator_update : bool;
  _errors : list (string * error_message);
}.

(** [Validator(schema, model_class)] *)
Definition Validator_init (schema : gmap string (gmap string value))
  (model_class : option (string -> value -> result (option object_id))) : Validator :=
  {| validator_schema := schema; model_class := model_class;
     validator_model := None; validator_update := false; _errors := [] |}.

(** [self._error(field, message)] *)
Definition _error (self : Validator) (field : string) (msg : error_message) : Validator :=
  {| validator_schema := validator_schema self; model_class := model_class self;
     validator_model := validator_model self;
     validator_update := validator_update self;
     _errors := _errors self ++ [(field, msg)] |}.

Definition unique_needs_class : string :=
  "The rule `unique` needs a SQLAlchemy declarative class to perform queries to check if the value being validated is unique. Provide a class in Validator constructor.".

(** [Validator._validate_unique(self, is_unique, field, value)] *)
Definition _validate_unique (self : Validator) (is_unique : bool)
  (field : string) (v : value) : result Validator :=
  if is_unique then
    match model_class self with
    | None => Raise (RuntimeError unique_needs_class)
    | Some query =>
        model <- query field v ;;
        match model with
        | Some found =>
            if negb (validator_update self)
               || negb (bool_decide (Some found = validator_model self))
            then Ok (_error self field (MustBeUnique v))
            else Ok self
        | None => Ok self
        end
    end
  else Ok self.


(** Two states of a validator that differ in the error list only. *)
Definition same_configuration (self self' : Validator) : Prop :=
  model_class self' = model_class self
  /\ validator_schema self' = validator_schema self
  /\ validator_model self' = validator_model self
  /\ validator_update self' = validator_update self.

(** What [validate] inherits from the base class, [cerberus.Validator],
    which the module imports and does not define.  The base class calls a
    rule's handler, [_validate_<rule>(constraint, field, value)], for the
    fields of the document whose rule-set in the schema has the rule.  Its
    own handlers are left open: [inherited_rules] stands for those that
    run on a field before [unique] does; they add entries of their own,
    each a field with a message, to the error list and say whether the
    field's remaining rules still run.  [unknown_field] is what the base
    class records for a field the schema does not name, [after_fields]
    what it records once the fields are done (the required fields). *)
Record base_class : Type := {
  inherited_rules :
    gmap string value -> string -> value -> Validator -> list (string * string) * bool;
  unknown_field : string -> value -> Validator -> list (string * string);
  after_fields : list (string * value) -> Validator -> list (string * string);
}.

Definition add_errors (self : Validator) (errors : list (string * string)) : Validator :=
  {| validator_schema := validator_schema self; model_class := model_class self;
     validator_model := validator_model self;
     validator_update := validator_update self;
     _errors := _errors self ++ (prod_map id BaseError <$> errors) |}.

(** The rules of one field: the inherited handlers, then the handler the
    module adds, [_validate_unique], called with the constraint the schema
    gives for [unique], the field and its value. *)
Definition validate_definitions (base : base_class) (definitions : gmap string value)
  (field : string) (v : value) (self : Validator) : result Validator :=
  let '(errors, continue) := inherited_rules base definitions field v self in
  let self := add_errors self errors in
  if continue then
    match definitions !! "unique" with
    | Some is_unique => _validate_unique self (value_truthy is_unique) field v
    | None => Ok self
    end
  else Ok self.

(** The base class goes through the fields of the document, in order. *)
Fixpoint validate_fields (base : base_class) (document : list (string * value))
  (self : Validator) : result Validator :=
  match document with
  | [] => Ok self
  | (field, v) :: rest =>
      match validator_schema self !! field with
      | Some definitions =>
          self <- validate_definitions base definitions field v self ;;
          validate_fields base rest self
      | None =>
          validate_fields base rest (add_errors self (unknown_field base field v self))
      end
  end.

(** The state a call of [validate] starts from: [self.model = model]
    (line 235), and the base class's [update] flag and emptied error list. *)
Definition validate_start (self : Validator) (model : option object_id)
  (update : bool) : Validator :=
  {| validator_schema := validator_schema self; model_class := model_class self;
     validator_model := model; validator_update := update; _errors := [] |}.

(** [Validator.validate(self, document, model, update=update)]: whether the
    document is accepted, with the validator as the call leaves it. *)
Definition validate (base : base_class) (self : Validator)
  (document : list (string * value)) (model : option object_id) (update : bool)
  : result (bool * Validator) :=
  let self := validate_start self model update in
  self <- validate_fields base document self ;;
  let self := add_errors self (after_fields base document self) in
  Ok (match _errors self with [] => true | _ => false end, self).

(** What a caller sees of a call that returned: the verdict and the error
    list; [None] when the call raised. *)
Definition verdict (r : result (bool * Validator))
  : option (bool * list (string * error_message)) :=
  match r with
  | Ok (accepted, self) => Some (accepted, _errors self)
  | Raise _ => None
  end.

(** A base class with no other rule to apply; it is all a schema needs
    whose only rule is [unique]. *)
Definition no_other_rules : base_class :=
  {| inherited_rules := fun _ _ _ _ => ([], true);
     unknown_field := fun _ _ _ => [];
     after_fields := fun _ _ => [] |}.

Definition unique_email : gmap string (gmap string value) :=
  {[ "email" := {[ "unique" := VBool true ]} ]}.

(** A lookup that knows one address, held by the object 1. *)
Definition one_user (field : string) (v : value) : result (option object_id) :=
  match v with
  | VStr s => if bool_decide (field = "email") && bool_decide (s = "a@b.com")
              then Ok (Some 1%nat) else Ok None
  | _ => Ok None
  end.

(** A lookup whose query fails. *)
Definition connection_lost : exn := OtherError "connection lost".
Definition failing_lookup (field : string) (v : value) : result (option object_id) :=
  Raise connection_lost.

(** ** get_key_path *)

(** Induction on values, through the lists and dictionaries they hold. *)
Section ValueInd.
Context (P : value -> Prop).
Context (HNone : P VNone) (HBool : forall b, P (VBool b)) (HInt : forall n, P (VInt n)).
Context (HStr : forall s, P (VStr s)) (HOpaque : forall r, P (VOpaque r)).
Context (HList : forall items, Forall P items -> P (VList items)).
Context (HDict : forall items, Forall (fun kv => P kv.2) items -> P (VDict items)).

Fixpoint value_nested_ind (v : value) : P v :=
  match v with
  | VNone => HNone
  | VBool b => HBool b
  | VInt n => HInt n
  | VStr s => HStr s
  | VOpaque r => HOpaque r
  | VList items =>
      HList items
        ((fix all (l : list value) : Forall P l :=
            match l with
            | [] => List.Forall_nil P
            | x :: l' => List.Forall_cons P x l' (value_nested_ind x) (all l')
            end) items)
  | VDict items =>
      HDict items
        ((fix all (l : list (string * value)) : Forall (fun kv => P kv.2) l :=
            match l with
            | [] => List.Forall_nil _
            | kv :: l' => List.Forall_cons _ kv l' (value_nested_ind kv.2) (all l')
            end) items)
  end.

End ValueInd.

(** The loop [for map_key, value in _map.items()]; [rec] is the recursive
    call [get_key_path(key, value)], made when [type(value) == dict]. *)
Definition get_key_path_items (rec : value -> option (list string)) (key : string)
  : list (string * value) -> option (list string) :=
  fix loop items :=
    match items with
    | [] => None
    | (map_key, v) :: rest =>
        if bool_decide (map_key = key) then Some [map_key]
        else
          let path :=
            match v with
            | VDict _ =>
                match rec v with
                | Some (k :: _path) => [map_key] ++ [] ++ (k :: _path)
                | Some [] | None => []
                end
            | _ => []
            end in
          if bool_decide (0 < length path)%nat then Some path else loop rest
    end.

Fixpoint get_key_path_in (key : string) (v : value) {struct v} : option (list string) :=
  match v with
  | VDict items => get_key_path_items (get_key_path_in key) key items
  | _ => None
  end.

(** [get_key_path(key, _map)] *)
Definition get_key_path (key : string) (_map : list (string * value))
  : option (list string) :=
  get_key_path_in key (VDict _map).

(** [path] leads through nested dictionaries of [_map]: each key but the
    last names an entry that is a dictionary, the last names an entry. *)
Inductive key_path : list (string * value) -> list string -> Prop :=
| key_path_last _map k v :
    (k, v) ∈ _map -> key_path _map [k]
| key_path_step _map k inner path :
    (k, VDict inner) ∈ _map -> key_path inner path -> key_path _map (k :: path).

(** No value of the dictionary is itself a dictionary. *)
Definition flat (_map : list (string * value)) : Prop :=
  forall k inner, (k, VDict inner) ∉ _map.

(* ================================================================== *)
(** * Properties *)

(** ** generate_schema *)

Example generate_schema_User :
  generate_schema User [] [] None =
  Ok (<["id" := <["readonly" := VBool true]> {[ "type" := VStr "integer" ]}]>
      (<["email" := <["unique" := VBool true]> (<["required" := VBool true]>
          (<["maxlength" := VInt 120]> {[ "type" := VStr "string" ]}))]>
      (<["active" := {[ "type" := VStr "boolean" ]}]> ∅))).
Proof. reflexivity. Qed.


(** Lookups through the conditional assignments of the loop body. *)
Lemma lookup_cond_insert_ne (b : bool) (k k' : string) (v : value)
  (prop : gmap string value) :
  k <> k' -> (if b then <[k := v]> prop else prop) !! k' = prop !! k'.
Proof. intros Hne. destruct b; [by apply lookup_insert_ne|done]. Qed.

Lemma lookup_cond_insert_eq (b : bool) (k : string) (v : value)
  (prop : gmap string value) :
  (if b then <[k := v]> prop else prop) !! k = if b then Some v else prop !! k.
Proof. destruct b; [by apply lookup_insert_eq|done]. Qed.

Section GenerateSchema.
Context (include exclude exclude_rules : list string).

Local Abbreviation loop := (generate_schema_loop include exclude exclude_rules).

(** Every rule-set carries a [type] rule. *)
Lemma column_rules_type c prop :
  column_rules exclude_rules c = Ok prop ->
  exists t, conversions_get (column_python_type c) schema_type_conversions = Some t
            /\ prop !! "type" = Some (VStr t).
Proof.
  unfold column_rules. destruct (conversions_get _ _) as [t|]; [|done].
  intros [= <-]. exists t. split; [done|]. cbv zeta.
  rewrite !lookup_cond_insert_ne by done.
  by rewrite lookup_singleton_eq.
Qed.

Lemma column_rules_unsupported c :
  conversions_get (column_python_type c) schema_type_conversions = None ->
  column_rules exclude_rules c = Raise (LookupError unable_to_determine).
Proof. unfold column_rules. by intros ->. Qed.

Lemma column_rules_raise c e :
  column_rules exclude_rules c = Raise e -> e = LookupError unable_to_determine.
Proof.
  unfold column_rules. destruct (conversions_get _ _); [done|]. by intros [= <-].
Qed.

(** A name that no remaining column bears keeps its entry. *)
Lemma loop_lookup_other columns schema schema' name :
  name ∉ column_name <$> columns ->
  loop columns schema = Ok schema' ->
  schema' !! name = schema !! name.
Proof.
  revert schema. induction columns as [|c rest IH]; intros schema Hn; simpl.
  - by intros [= <-].
  - apply not_elem_of_cons in Hn as [Hne Hn].
    destruct (selected include exclude (column_name c)); [|by apply IH].
    destruct (column_rules exclude_rules c) as [prop|e]; simpl; [|done].
    intros H. rewrite (IH _ Hn H). by rewrite lookup_insert_ne.
Qed.

(** With distinct column names, a selected column's entry is its rule-set. *)
Lemma loop_lookup_selected columns schema schema' c :
  NoDup (column_name <$> columns) ->
  loop columns schema = Ok schema' ->
  c ∈ columns ->
  selected include exclude (column_name c) = true ->
  exists prop, column_rules exclude_rules c = Ok prop
               /\ schema' !! column_name c = Some prop.
Proof.
  revert schema. induction columns as [|c' rest IH]; intros schema Hnd Hl Hin Hsel.
  - by apply elem_of_nil in Hin.
  - rewrite fmap_cons in Hnd. apply NoDup_cons in Hnd as [Hfresh Hnd].
    simpl in Hl. apply elem_of_cons in Hin as [->|Hin].
    + rewrite Hsel in Hl.
      destruct (column_rules exclude_rules c') as [prop|e]; simpl in Hl; [|done].
      exists prop. split; [done|].
      rewrite (loop_lookup_other _ _ _ _ Hfresh Hl). by rewrite lookup_insert_eq.
    + destruct (selected include exclude (column_name c')); [|by eapply IH].
      destruct (column_rules exclude_rules c') as [prop|e]; simpl in Hl; [|done].
      by eapply IH.
Qed.

(** Every entry of the result was there before or is the rule-set of a
    selected column. *)
Lemma loop_lookup_inv columns schema schema' name prop :
  loop columns schema = Ok schema' ->
  schema' !! name = Some prop ->
  schema !! name = Some prop
  \/ exists c, c ∈ columns /\ column_name c = name
               /\ selected include exclude name = true
               /\ column_rules exclude_rules c = Ok prop.
Proof.
  revert schema. induction columns as [|c rest IH]; intros schema; simpl.
  - intros [= <-]. by left.
  - destruct (selected include exclude (column_name c)) eqn:Hsel.
    + destruct (column_rules exclude_rules c) as [p|e] eqn:Hr; simpl; [|done].
      intros Hl Hs. destruct (IH _ Hl Hs) as [Hold|(c' & ? & ? & ? & ?)].
      * destruct (decide (column_name c = name)) as [<-|Hne].
        -- rewrite lookup_insert_eq in Hold. injection Hold as <-.
           right. exists c. by rewrite elem_of_cons; eauto.
        -- rewrite lookup_insert_ne in Hold by done. by left.
      * right. exists c'. rewrite elem_of_cons. eauto.
    + intros Hl Hs. destruct (IH _ Hl Hs) as [Hold|(c' & ? & ? & ? & ?)]; [by left|].
      right. exists c'. rewrite elem_of_cons. eauto.
Qed.

(** One selected column without a type mapping aborts the whole loop. *)
Lemma loop_unsupported columns schema c :
  c ∈ columns ->
  selected include exclude (column_name c) = true ->
  conversions_get (column_python_type c) schema_type_conversions = None ->
  loop columns schema = Raise (LookupError unable_to_determine).
Proof.
  revert schema. induction columns as [|c' rest IH]; intros schema Hin Hsel Hty.
  - by apply elem_of_nil in Hin.
  - simpl. apply elem_of_cons in Hin as [->|Hin].
    + by rewrite Hsel, column_rules_unsupported.
    + destruct (selected include exclude (column_name c')); [|by apply IH].
      destruct (column_rules exclude_rules c') as [prop|e] eqn:Hr; simpl.
      * by apply IH.
      * by rewrite (column_rules_raise _ _ Hr).
Qed.

(** The loop fails only through an unsupported selected column. *)
Lemma loop_ok columns schema :
  (forall c, c ∈ columns -> selected include exclude (column_name c) = true ->
             conversions_get (column_python_type c) schema_type_conversions <> None) ->
  exists schema', loop columns schema = Ok schema'.
Proof.
  revert schema. induction columns as [|c rest IH]; intros schema Hall; simpl; [eauto|].
  destruct (selected include exclude (column_name c)) eqn:Hsel.
  - unfold column_rules at 1.
    destruct (conversions_get _ _) eqn:Hc.
    + simpl. apply IH. intros c' ? ?. apply Hall; [by apply elem_of_cons; right|done].
    + exfalso. by apply (Hall c); [apply elem_of_cons; left|..].
  - apply IH. intros c' ? ?. apply Hall; [by apply elem_of_cons; right|done].
Qed.

End GenerateSchema.

(** The [required] and [maxlength] entries of a rule-set, read off the
    guards of the loop body. *)
Lemma column_rules_required exclude_rules c prop :
  column_rules exclude_rules c = Ok prop ->
  prop !! "required" =
    if negb (py_in "required" exclude_rules)
       && default_is_none (column_default c)
       && bool_decide (column_server_default c = None)
       && negb (column_nullable c)
       && negb (column_primary_key c)
    then Some (VBool true) else None.
Proof.
  unfold column_rules. destruct (conversions_get _ _) as [t|]; [|done].
  intros [= <-]. cbv zeta.
  rewrite lookup_cond_insert_ne by done.
  rewrite lookup_cond_insert_eq.
  rewrite !lookup_cond_insert_ne by done.
  by rewrite lookup_singleton_ne.
Qed.

Lemma column_rules_maxlength exclude_rules c prop :
  column_rules exclude_rules c = Ok prop ->
  prop !! "maxlength" =
    if negb (py_in "readonly" exclude_rules)
       && bool_decide (column_python_type c = py_str)
       && bool_decide (column_type_length c ≠ None)
    then Some (from_option VInt VNone (column_type_length c)) else None.
Proof.
  unfold column_rules. destruct (conversions_get _ _) as [t|]; [|done].
  intros [= <-]. cbv zeta.
  rewrite !lookup_cond_insert_ne by done.
  rewrite lookup_cond_insert_eq.
  by rewrite lookup_singleton_ne.
Qed.

Lemma py_in_false name seq : py_in name seq = false <-> name ∉ seq.
Proof. unfold py_in. by rewrite bool_decide_eq_false. Qed.

Lemma py_in_true name seq : py_in name seq = true <-> name ∈ seq.
Proof. unfold py_in. by rewrite bool_decide_eq_true. Qed.

Lemma py_in_cons name k seq :
  py_in name (k :: seq) = bool_decide (name = k) || py_in name seq.
Proof.
  unfold py_in. destruct (decide (name = k)) as [->|Hne].
  - rewrite (bool_decide_eq_true_2 (k = k)) by done.
    by rewrite bool_decide_eq_true_2 by apply list_elem_of_here.
  - rewrite (bool_decide_eq_false_2 (name = k)) by done. simpl.
    apply bool_decide_ext. rewrite elem_of_cons. tauto.
Qed.

Lemma default_is_none_true d : default_is_none d = true <-> d = NoDefault.
Proof. by destruct d. Qed.

Lemma required_guard exclude_rules c :
  (negb (py_in "required" exclude_rules)
   && default_is_none (column_default c)
   && bool_decide (column_server_default c = None)
   && negb (column_nullable c)
   && negb (column_primary_key c)) = true
  <-> required_by_column exclude_rules c.
Proof.
  unfold required_by_column.
  rewrite !andb_true_iff, !negb_true_iff, py_in_false, default_is_none_true,
    bool_decide_eq_true.
  tauto.
Qed.

(** C1 (as amended): with distinct column names, the rule-set of every
    selected field has [required: True] exactly when the [required] rule
    kind is not excluded and the field has no default, no server default,
    is not nullable and is not a primary key; the rule-set of a primary
    key has no [required] entry at all. *)
Theorem generate_schema_required model_class include exclude exclude_rules schema c :
  NoDup (column_name <$> mapper_c model_class) ->
  generate_schema model_class include exclude exclude_rules = Ok schema ->
  c ∈ mapper_c model_class ->
  selected include exclude (column_name c) = true ->
  exists prop,
    schema !! column_name c = Some prop
    /\ (prop !! "required" = Some (VBool true)
        <-> required_by_column (default [] exclude_rules) c)
    /\ (column_primary_key c = true -> prop !! "required" = None).
Proof.
  unfold generate_schema. intros Hnd Hgen Hin Hsel.
  destruct (loop_lookup_selected _ _ _ _ _ _ _ Hnd Hgen Hin Hsel) as (prop & Hr & Hl).
  exists prop. split; [done|].
  rewrite (column_rules_required _ _ _ Hr), <- required_guard.
  split.
  - by case_match.
  - intros ->. by rewrite andb_false_r.
Qed.

(** Without the guard on [exclude_rules] the equivalence does not hold:
    [email] is selected, has no default of either kind, is not nullable and
    is no primary key, yet with [exclude_rules=["required"]] its rule-set
    has no [required] entry. *)
Lemma generate_schema_required_excluded :
  schema_rule (generate_schema User [] [] (Some ["required"])) "email" "type"
    = Some (VStr "string")
  /\ schema_rule (generate_schema User [] [] (Some ["required"])) "email" "required"
    = None
  /\ column_default email_column = NoDefault
  /\ column_server_default email_column = None
  /\ column_nullable email_column = false
  /\ column_primary_key email_column = false.
Proof. repeat split; reflexivity. Qed.

Lemma generate_schema_required_witness :
  exists prop,
    user_schema !! "email" = Some prop
    /\ (prop !! "required" = Some (VBool true) <-> required_by_column [] email_column)
    /\ (false = true -> prop !! "required" = None).
Proof.
  apply (generate_schema_required User [] [] None user_schema email_column).
  - apply (bool_decide_unpack _). reflexivity.
  - reflexivity.
  - apply list_elem_of_further, list_elem_of_here.
  - reflexivity.
Defined.

(** The [maxlength] rule follows the exclusion of [readonly], the rule kind
    its guard names, and no other: for a rule-set that was generated,
    [maxlength] is present exactly when [readonly] is not excluded, the
    column is a string column and its type declares a length. *)
Lemma column_rules_maxlength_present exclude_rules c prop :
  column_rules exclude_rules c = Ok prop ->
  prop !! "maxlength" <> None
  <-> ("readonly" ∉ exclude_rules)
      /\ column_python_type c = py_str
      /\ column_type_length c <> None.
Proof.
  intros Hr. rewrite (column_rules_maxlength _ _ _ Hr). split.
  - intros H.
    destruct (py_in "readonly" exclude_rules) eqn:E1; simpl in H; [done|].
    destruct (bool_decide (column_python_type c = py_str)) eqn:E2; simpl in H; [|done].
    destruct (bool_decide (column_type_length c ≠ None)) eqn:E3; [|done].
    split; [by apply py_in_false|].
    by apply bool_decide_eq_true in E2, E3.
  - intros (H1 & H2 & H3). apply py_in_false in H1. rewrite H1.
    by rewrite !bool_decide_eq_true_2 by done.
Qed.

(** C2: the guard of the [maxlength] rule names [readonly], so the rule is
    not suppressed by its own name: excluding [maxlength] leaves [email]'s
    [maxlength: 120] in the schema, and excluding [readonly] alone removes
    it. *)
Theorem generate_schema_maxlength_guard :
  schema_rule (generate_schema User [] [] (Some ["maxlength"])) "email" "maxlength"
    = Some (VInt 120)
  /\ schema_rule (generate_schema User [] [] (Some ["readonly"])) "email" "maxlength"
    = None
  /\ schema_rule (generate_schema User [] [] None) "email" "maxlength"
    = Some (VInt 120).
Proof. repeat split; reflexivity. Qed.

(** Every entry of a generated schema is the rule-set of a selected
    column, and has a [type]. *)
Lemma generate_schema_entry model_class include exclude exclude_rules schema name prop :
  generate_schema model_class include exclude exclude_rules = Ok schema ->
  schema !! name = Some prop ->
  (exists c, c ∈ mapper_c model_class /\ column_name c = name
             /\ selected include exclude name = true
             /\ column_rules (default [] exclude_rules) c = Ok prop)
  /\ exists t, prop !! "type" = Some (VStr t).
Proof.
  unfold generate_schema. intros Hgen Hl.
  destruct (loop_lookup_inv _ _ _ _ _ _ _ _ Hgen Hl) as [Hempty|(c & Hin & Hn & Hsel & Hr)].
  - by rewrite lookup_empty in Hempty.
  - split; [by exists c|].
    destruct (column_rules_type _ _ _ Hr) as (t & _ & Ht). by exists t.
Qed.

(** A schema is returned when every selected column has a type mapping. *)
Lemma generate_schema_ok model_class include exclude exclude_rules :
  (forall c, c ∈ mapper_c model_class ->
             selected include exclude (column_name c) = true ->
             conversions_get (column_python_type c) schema_type_conversions <> None) ->
  exists schema, generate_schema model_class include exclude exclude_rules = Ok schema.
Proof. unfold generate_schema. apply loop_ok. Qed.

(** The types [schema_type_conversions] has no entry for. *)
Lemma conversions_get_unsupported t :
  t ∉ [py_int; py_str; py_bool; py_date; py_datetime] ->
  conversions_get t schema_type_conversions = None.
Proof.
  intros Hn. destruct t; try reflexivity; exfalso; apply Hn;
    repeat first [apply list_elem_of_here | apply list_elem_of_further].
Qed.

(** C5: the conversion table maps int, str, bool, date and datetime to
    integer, string, boolean, string and string; and one selected column
    whose type is none of the five makes [generate_schema] raise the
    LookupError of line 199, so that no schema is returned. *)
Theorem generate_schema_unsupported_type model_class include exclude exclude_rules c :
  c ∈ mapper_c model_class ->
  selected include exclude (column_name c) = true ->
  column_python_type c ∉ [py_int; py_str; py_bool; py_date; py_datetime] ->
  map (fun t => conversions_get t schema_type_conversions)
      [py_int; py_str; py_bool; py_date; py_datetime]
    = [Some "integer"; Some "string"; Some "boolean"; Some "string"; Some "string"]
  /\ generate_schema model_class include exclude exclude_rules
     = Raise (LookupError unable_to_determine).
Proof.
  intros Hin Hsel Hty. split; [reflexivity|].
  unfold generate_schema.
  eapply loop_unsupported; eauto using conversions_get_unsupported.
Qed.

Lemma generate_schema_unsupported_type_witness :
  map (fun t => conversions_get t schema_type_conversions)
      [py_int; py_str; py_bool; py_date; py_datetime]
    = [Some "integer"; Some "string"; Some "boolean"; Some "string"; Some "string"]
  /\ generate_schema Product [] ["id"] (Some ["unique"])
     = Raise (LookupError unable_to_determine).
Proof.
  apply (generate_schema_unsupported_type Product [] ["id"] (Some ["unique"]) price_column).
  - apply list_elem_of_further, list_elem_of_here.
  - reflexivity.
  - apply (bool_decide_unpack _). reflexivity.
Defined.

(** ** Insertion-ordered dictionaries *)

Section Dict.
Context {A : Type}.
Implicit Types (d : list (string * A)) (k : string) (v : A).

Lemma dict_get_set_eq k v d : dict_get k (dict_set k v d) = Some v.
Proof.
  induction d as [|[k' w] d IH]; simpl.
  - by rewrite bool_decide_eq_true_2.
  - destruct (decide (k' = k)) as [->|Hne].
    + rewrite bool_decide_eq_true_2 by done. simpl.
      by rewrite bool_decide_eq_true_2.
    + rewrite bool_decide_eq_false_2 by done. simpl.
      by rewrite bool_decide_eq_false_2.
Qed.

Lemma dict_get_set_ne k k' v d :
  k <> k' -> dict_get k' (dict_set k v d) = dict_get k' d.
Proof.
  intros Hne. induction d as [|[k0 w] d IH]; simpl.
  - by rewrite bool_decide_eq_false_2.
  - destruct (decide (k0 = k)) as [->|Hne0].
    + rewrite bool_decide_eq_true_2 by done. simpl.
      by rewrite !bool_decide_eq_false_2.
    + rewrite (bool_decide_eq_false_2 _ Hne0). simpl.
      by rewrite IH.
Qed.

Lemma dict_get_None k d : dict_get k d = None <-> k ∉ dict_keys d.
Proof.
  unfold dict_keys. induction d as [|[k0 w] d IH]; simpl.
  - split; [intros _; apply not_elem_of_nil|done].
  - rewrite not_elem_of_cons. destruct (decide (k0 = k)) as [->|Hne].
    + rewrite bool_decide_eq_true_2 by done. naive_solver.
    + rewrite bool_decide_eq_false_2 by done. naive_solver.
Qed.

Lemma dict_get_is_Some k d : is_Some (dict_get k d) <-> k ∈ dict_keys d.
Proof.
  rewrite <- not_eq_None_Some, dict_get_None.
  split; [apply dec_stable|auto].
Qed.

Lemma dict_keys_set k k' v d :
  k' ∈ dict_keys (dict_set k v d) <-> k' = k \/ k' ∈ dict_keys d.
Proof.
  rewrite <- !dict_get_is_Some. destruct (decide (k = k')) as [->|Hne].
  - rewrite dict_get_set_eq. naive_solver.
  - rewrite dict_get_set_ne by done. naive_solver.
Qed.

End Dict.

(** ** import_into_sqla_object *)

(** The attributes after the loop has gone through [keys]. *)
Lemma import_loop_attrs {O : Type} mp data keys (m : model_of O) key :
  model_attrs (import_loop mp data keys m) !! key =
    if py_in key keys && in_mapper_c key mp
    then Some (Ok (default VNone (dict_get key data)))
    else model_attrs m !! key.
Proof.
  revert m. induction keys as [|k rest IH]; intros m; simpl; [done|].
  rewrite py_in_cons.
  destruct (in_mapper_c k mp) eqn:Hk; rewrite IH; clear IH.
  - destruct (py_in key rest && in_mapper_c key mp) eqn:Hrest.
    + apply andb_true_iff in Hrest as [-> ->]. by rewrite orb_true_r.
    + simpl. destruct (decide (key = k)) as [->|Hne].
      * rewrite bool_decide_eq_true_2, Hk by done. simpl. by rewrite lookup_insert_eq.
      * rewrite bool_decide_eq_false_2 by done. simpl. rewrite Hrest.
        by rewrite lookup_insert_ne.
  - destruct (decide (key = k)) as [->|Hne].
    + rewrite Hk, !andb_false_r. done.
    + by rewrite bool_decide_eq_false_2.
Qed.

(** Nothing but the attributes changes. *)
Lemma import_loop_frame {O : Type} mp data keys (m : model_of O) :
  let m' := import_loop mp data keys m in
  model_mapper m' = model_mapper m
  /\ model_persistent m' = model_persistent m
  /\ model_unloaded m' = model_unloaded m
  /\ model_relationships m' = model_relationships m
  /\ model_export_data m' = model_export_data m.
Proof.
  revert m. induction keys as [|k rest IH]; intros m; simpl; [done|].
  destruct (in_mapper_c k mp); [|apply IH].
  destruct (IH (setattr m k (default VNone (dict_get k data)))) as (?&?&?&?&?).
  done.
Qed.

(** C10 (as amended): [import_into_sqla_object] assigns exactly the keys
    of the document that are keys of [mapper.c], the attribute names
    under which the instance's class maps its columns: such an attribute
    then reads the document's value; every other key is passed over
    without an error; and every other attribute, like the rest of the
    instance, is left as it was. *)
Theorem import_into_sqla_object_columns {O : Type} (model_instance : model_of O)
  (data : list (string * value)) (key : string) :
  let imported := import_into_sqla_object model_instance data in
  model_attrs imported !! key =
    (if py_in key (dict_keys data) && in_mapper_c key (model_mapper model_instance)
     then Ok <$> dict_get key data
     else model_attrs model_instance !! key)
  /\ model_mapper imported = model_mapper model_instance
  /\ model_persistent imported = model_persistent model_instance
  /\ model_unloaded imported = model_unloaded model_instance
  /\ model_relationships imported = model_relationships model_instance
  /\ model_export_data imported = model_export_data model_instance.
Proof.
  unfold import_into_sqla_object. split; [|apply import_loop_frame].
  rewrite import_loop_attrs.
  destruct (py_in key (dict_keys data)) eqn:Hin; simpl; [|done].
  destruct (in_mapper_c key (model_mapper model_instance)); [|done].
  apply py_in_true, dict_get_is_Some in Hin as [v ->]. done.
Qed.

(** Membership in a validation schema is not the test.  A schema generated
    with [exclude=["org_id"]] has no [org_id] key; a document that carries
    nothing but [org_id] is accepted against it when unknown fields are
    let through, and still overwrites the instance's [org_id], which is a
    key of [mapper.c].  And where a class maps the column [id] under the
    attribute [ident], the schema's key [id] is not assigned from a
    document, while [ident], which is no key of the schema, is. *)
Lemma import_into_sqla_object_outside_schema :
  is_ok (generate_schema Account [] ["org_id"] None) = true
  /\ from_ok ∅ (generate_schema Account [] ["org_id"] None) !! "org_id" = None
  /\ verdict (validate no_other_rules
                (Validator_init (from_ok ∅ (generate_schema Account [] ["org_id"] None)) None)
                [("org_id", VInt 7)] None false) = Some (true, [])
  /\ getattr account "org_id" = Ok (VInt 1)
  /\ getattr (import_into_sqla_object account [("org_id", VInt 7)]) "org_id" = Ok (VInt 7)
  /\ is_Some (from_ok ∅ (generate_schema Ticket [] [] None) !! "id")
  /\ from_ok ∅ (generate_schema Ticket [] [] None) !! "ident" = None
  /\ model_attrs (import_into_sqla_object ticket [("id", VInt 9); ("ident", VInt 9)])
     = attrs_of [("ident", VInt 9); ("name", VStr "t")].
Proof. repeat split; try reflexivity. by eexists. Qed.

(** An unknown key is passed over and a key of [mapper.c] is assigned. *)
Example import_into_sqla_object_account :
  model_attrs (import_into_sqla_object account
                 [("name", VStr "bob"); ("nickname", VStr "b")])
  = attrs_of [("id", VInt 1); ("org_id", VInt 1); ("name", VStr "bob")].
Proof. reflexivity. Qed.

(** ** ExportData *)

Lemma column_selected_true include exclude name :
  column_selected include exclude name = true
  <-> (include = [] \/ name ∈ include) /\ name ∉ exclude.
Proof.
  unfold column_selected.
  by rewrite andb_true_iff, orb_true_iff, negb_true_iff, bool_decide_eq_true,
    py_in_true, py_in_false.
Qed.

Section ExportColumns.
Context (obj : model_of pyobj) (persisted : bool) (include exclude : list string).

Local Abbreviation columns_loop := (export_columns obj persisted include exclude).

(** One turn of the loop. *)
Lemma export_columns_cons c rest data :
  columns_loop (c :: rest) data =
    if column_selected include exclude (column_name c) then
      column_value <- getattr obj (column_name c) ;;
      columns_loop rest
        (dict_set (column_name c) (column_export persisted c column_value) data)
    else columns_loop rest data.
Proof. reflexivity. Qed.

Lemma export_columns_get_other columns data data' name :
  name ∉ column_name <$> columns ->
  columns_loop columns data = Ok data' ->
  dict_get name data' = dict_get name data.
Proof.
  revert data. induction columns as [|c rest IH]; intros data Hn.
  - simpl. by intros [= <-].
  - rewrite fmap_cons in Hn. apply not_elem_of_cons in Hn as [Hne Hn].
    rewrite export_columns_cons.
    destruct (column_selected include exclude (column_name c)); [|by apply IH].
    destruct (getattr obj (column_name c)) as [live|e]; simpl; [|done].
    intros H. rewrite (IH _ Hn H). by rewrite dict_get_set_ne.
Qed.

(** When the loop returns, a selected column was read, and with distinct
    names its entry is what the loop made of the value. *)
Lemma export_columns_get columns data data' c :
  NoDup (column_name <$> columns) ->
  c ∈ columns ->
  column_selected include exclude (column_name c) = true ->
  columns_loop columns data = Ok data' ->
  exists live, getattr obj (column_name c) = Ok live
               /\ dict_get (column_name c) data' = Some (column_export persisted c live).
Proof.
  revert data. induction columns as [|c' rest IH]; intros data Hnd Hin Hsel.
  - by apply elem_of_nil in Hin.
  - rewrite fmap_cons in Hnd. apply NoDup_cons in Hnd as [Hfresh Hnd].
    rewrite export_columns_cons. apply elem_of_cons in Hin as [->|Hin].
    + rewrite Hsel.
      destruct (getattr obj (column_name c')) as [live|e]; simpl; [|done].
      intros H. exists live. split; [done|].
      rewrite (export_columns_get_other _ _ _ _ Hfresh H).
      by rewrite dict_get_set_eq.
    + destruct (column_selected include exclude (column_name c')); [|by apply IH].
      destruct (getattr obj (column_name c')) as [live|e]; simpl; [|done].
      by apply IH.
Qed.

(** Keys come from the dictionary the loop started with or from a column
    that passes the filter. *)
Lemma export_columns_keys columns data data' name :
  columns_loop columns data = Ok data' ->
  name ∈ dict_keys data' ->
  name ∈ dict_keys data
  \/ (name ∈ column_name <$> columns /\ column_selected include exclude name = true).
Proof.
  revert data. induction columns as [|c rest IH]; intros data.
  - simpl. intros [= <-]. by left.
  - rewrite export_columns_cons, fmap_cons, elem_of_cons.
    destruct (column_selected include exclude (column_name c)) eqn:Hsel.
    + destruct (getattr obj (column_name c)) as [live|e]; simpl; [|done].
      intros H [Hd|[? ?]]%(IH _ H); [|by auto].
      apply dict_keys_set in Hd as [->|?]; auto.
    + intros H [?|[? ?]]%(IH _ H); auto.
Qed.

(** The loop returns when the selected columns can be read. *)
Lemma export_columns_ok columns data :
  (forall c, c ∈ columns -> column_selected include exclude (column_name c) = true ->
             is_ok (getattr obj (column_name c)) = true) ->
  exists data', columns_loop columns data = Ok data'.
Proof.
  revert data. induction columns as [|c rest IH]; intros data Hread; [simpl; eauto|].
  rewrite export_columns_cons.
  assert (forall c', c' ∈ rest ->
            column_selected include exclude (column_name c') = true ->
            is_ok (getattr obj (column_name c')) = true) as Hrest.
  { intros c' ? ?. apply Hread; [by apply list_elem_of_further|done]. }
  destruct (column_selected include exclude (column_name c)) eqn:Hsel; [|by apply IH].
  specialize (Hread c (list_elem_of_here _ _) Hsel).
  destruct (getattr obj (column_name c)) as [live|e]; [|done]. simpl. by apply IH.
Qed.

(** It raises what the first selected column that cannot be read raises. *)
Lemma export_columns_raise columns data e :
  columns_loop columns data = Raise e ->
  exists c, c ∈ columns /\ column_selected include exclude (column_name c) = true
            /\ getattr obj (column_name c) = Raise e.
Proof.
  revert data. induction columns as [|c rest IH]; intros data; [done|].
  rewrite export_columns_cons.
  destruct (column_selected include exclude (column_name c)) eqn:Hsel.
  - destruct (getattr obj (column_name c)) as [live|e'] eqn:Hg; simpl.
    + intros (c' & ? & ? & ?)%IH. exists c'. by rewrite elem_of_cons; auto.
    + intros [= <-]. exists c. by rewrite elem_of_cons; auto.
  - intros (c' & ? & ? & ?)%IH. exists c'. by rewrite elem_of_cons; auto.
Qed.

End ExportColumns.

Section ExportRelationships.
Context (rec : pyobj -> result value) (unloaded exclude : list string).

Local Abbreviation rel_loop := (export_relationships rec unloaded exclude).

(** One turn of the loop. *)
Lemma export_relationships_cons key rproperty rest data :
  rel_loop ((key, rproperty) :: rest) data =
    if negb (py_in key unloaded) && negb (py_in key exclude) then
      v <- relationship_export rec rproperty ;;
      rel_loop rest (dict_set key v data)
    else rel_loop rest data.
Proof.
  simpl. destruct (negb (py_in key unloaded) && negb (py_in key exclude)); [|done].
  unfold relationship_export.
  destruct (export_data_of rproperty) as [f|].
  - destruct (f [] []) as [v|e]; simpl; [|done].
    f_equal. clear. induction data as [|[k w] d IH]; simpl.
    + by rewrite bool_decide_eq_true_2.
    + destruct (bool_decide (k = key)) eqn:Hk; simpl; rewrite Hk; [done|].
      by rewrite IH.
  - destruct (truthy rproperty); simpl.
    + destruct (rec rproperty) as [v|e]; simpl; [|done].
      f_equal. clear. induction data as [|[k w] d IH]; simpl.
      * by rewrite bool_decide_eq_true_2.
      * destruct (bool_decide (k = key)) eqn:Hk; simpl; rewrite Hk; [done|].
        by rewrite IH.
    + done.
Qed.

Lemma export_relationships_get_other relationships data data' key :
  key ∉ relationships.*1 ->
  rel_loop relationships data = Ok data' ->
  dict_get key data' = dict_get key data.
Proof.
  revert data. induction relationships as [|[k o] rest IH]; intros data Hn.
  - simpl. by intros [= <-].
  - rewrite fmap_cons in Hn. apply not_elem_of_cons in Hn as [Hne Hn]. simpl in Hne.
    rewrite export_relationships_cons.
    destruct (negb (py_in k unloaded) && negb (py_in k exclude)); [|by apply IH].
    destruct (relationship_export rec o) as [v|e]; simpl; [|done].
    intros H. rewrite (IH _ Hn H). by rewrite dict_get_set_ne.
Qed.

Lemma export_relationships_get relationships data data' key rproperty :
  NoDup relationships.*1 ->
  (key, rproperty) ∈ relationships ->
  key ∉ unloaded -> key ∉ exclude ->
  rel_loop relationships data = Ok data' ->
  exists v, relationship_export rec rproperty = Ok v /\ dict_get key data' = Some v.
Proof.
  revert data. induction relationships as [|[k o] rest IH]; intros data Hnd Hin Hu He.
  - by apply elem_of_nil in Hin.
  - rewrite fmap_cons in Hnd. apply NoDup_cons in Hnd as [Hfresh Hnd]. simpl in Hfresh.
    rewrite export_relationships_cons.
    apply elem_of_cons in Hin as [[= <- <-]|Hin].
    + apply py_in_false in Hu, He. rewrite Hu, He. simpl.
      destruct (relationship_export rec rproperty) as [v|e]; simpl; [|done].
      intros H. exists v. split; [done|].
      rewrite (export_relationships_get_other _ _ _ _ Hfresh H).
      by rewrite dict_get_set_eq.
    + destruct (negb (py_in k unloaded) && negb (py_in k exclude)); [|by apply IH].
      destruct (relationship_export rec o) as [v|e]; simpl; [|done].
      by apply IH.
Qed.

(** Keys come from the dictionary the loop started with or from a loaded
    relationship that is not excluded. *)
Lemma export_relationships_keys relationships data data' key :
  rel_loop relationships data = Ok data' ->
  key ∈ dict_keys data' ->
  key ∈ dict_keys data
  \/ (key ∈ relationships.*1 /\ (key ∉ unloaded) /\ (key ∉ exclude)).
Proof.
  revert data. induction relationships as [|[k o] rest IH]; intros data.
  - simpl. intros [= <-]. by left.
  - rewrite export_relationships_cons, fmap_cons, elem_of_cons. simpl.
    destruct (negb (py_in k unloaded) && negb (py_in k exclude)) eqn:Hg.
    + destruct (relationship_export rec o) as [v|e]; simpl; [|done].
      intros H [Hd|(?&?&?)]%(IH _ H); [|by auto].
      apply dict_keys_set in Hd as [->|?]; [|by auto].
      apply andb_true_iff in Hg as [Hu He].
      apply negb_true_iff, py_in_false in Hu, He. auto.
    + intros H [?|(?&?&?)]%(IH _ H); auto.
Qed.

End ExportRelationships.

(** The two branches of [__call__], unfolded once. *)
Lemma ExportData_call_model self m include exclude :
  ExportData_call self (OModel m) include exclude =
    let exclude := exclude ++ self_exclude self in
    data <- export_columns m (model_persistent m) include exclude
              (mapper_c (model_mapper m)) [] ;;
    if model_persistent m then
      data <- export_relationships (fun rproperty => ExportData_call self rproperty [] [])
                (model_unloaded m) exclude (model_relationships m) data ;;
      Ok (VDict data)
    else Ok (VDict data).
Proof. reflexivity. Qed.

(** A call that returns went through both loops. *)
Lemma ExportData_call_model_inv self m include exclude v :
  ExportData_call self (OModel m) include exclude = Ok v ->
  exists columns_data data,
    export_columns m (model_persistent m) include (exclude ++ self_exclude self)
      (mapper_c (model_mapper m)) [] = Ok columns_data
    /\ v = VDict data
    /\ if model_persistent m
       then export_relationships (fun rproperty => ExportData_call self rproperty [] [])
              (model_unloaded m) (exclude ++ self_exclude self)
              (model_relationships m) columns_data = Ok data
       else data = columns_data.
Proof.
  rewrite ExportData_call_model. cbv zeta.
  destruct (export_columns _ _ _ _ _ _) as [columns_data|e]; simpl; [|done].
  destruct (model_persistent m).
  - destruct (export_relationships _ _ _ _ _) as [data|e] eqn:Hrel; simpl; [|done].
    intros [= <-]. by exists columns_data, data.
  - intros [= <-]. by exists columns_data, columns_data.
Qed.

Lemma ExportData_call_list self items include exclude :
  ExportData_call self (OList items) include exclude =
    match custom_exports items include exclude with
    | Ok vs => Ok (VList vs)
    | Raise (AttributeError msg) =>
        if has_export_data (default ONone (head items))
        then Raise (AttributeError msg)
        else
          vs <- export_each (fun item => ExportData_call self item include exclude) items ;;
          Ok (VList vs)
    | Raise e => Raise e
    end.
Proof. reflexivity. Qed.

(** The export of a mapped instance, when it returns, is a dictionary
    whose keys are selected columns or loaded, not excluded relationships. *)
Lemma ExportData_call_model_keys self m include exclude v :
  ExportData_call self (OModel m) include exclude = Ok v ->
  exists data, v = VDict data /\ forall key, key ∈ dict_keys data ->
    (key ∈ column_name <$> mapper_c (model_mapper m)
     /\ column_selected include (exclude ++ self_exclude self) key = true)
    \/ (model_persistent m = true
        /\ key ∈ (model_relationships m).*1
        /\ (key ∉ model_unloaded m)
        /\ (key ∉ exclude ++ self_exclude self)).
Proof.
  intros (columns_data & data & Hcols & -> & Hrel)%ExportData_call_model_inv.
  exists data. split; [done|]. intros key Hkey.
  assert (key ∈ dict_keys columns_data ->
          key ∈ column_name <$> mapper_c (model_mapper m)
          /\ column_selected include (exclude ++ self_exclude self) key = true) as Hc.
  { intros [Hnil|?]%(export_columns_keys _ _ _ _ _ _ _ _ Hcols); [|done].
    by apply elem_of_nil in Hnil. }
  destruct (model_persistent m).
  - destruct (export_relationships_keys _ _ _ _ _ _ _ Hrel Hkey) as [?|Hr].
    + left. by apply Hc.
    + right. tauto.
  - subst data. left. by apply Hc.
Qed.

(** C9: whatever [include] and [exclude] the caller passes, the dictionary
    [export_from_sqla_object] returns for an instance has no [org_id] key. *)
Theorem export_from_sqla_object_no_org_id m include exclude v :
  export_from_sqla_object (OModel m) include exclude = Ok v ->
  exists data, v = VDict data /\ "org_id" ∉ dict_keys data.
Proof.
  unfold export_from_sqla_object. intros H.
  destruct (ExportData_call_model_keys _ _ _ _ _ H) as (data & -> & Hkeys).
  exists data. split; [done|]. intros Hin.
  assert ("org_id" ∈ exclude ++ ["org_id"]) as Hex.
  { apply elem_of_app. right. apply list_elem_of_here. }
  destruct (Hkeys _ Hin) as [[_ Hsel]|(_ & _ & _ & Hne)]; [|done].
  apply column_selected_true in Hsel as [_ Hne]. done.
Qed.

(** [org_id] stays out although the caller lists it in [include]. *)
Lemma export_from_sqla_object_no_org_id_witness :
  exists data,
    VDict [("id", VInt 1); ("name", VStr "ann")] = VDict data
    /\ "org_id" ∉ dict_keys data.
Proof.
  exact (export_from_sqla_object_no_org_id account ["id"; "org_id"; "name"] []
           (VDict [("id", VInt 1); ("name", VStr "ann")]) eq_refl).
Defined.

(** C6: for an instance that is not persisted (column names distinct), the
    export returns when the attributes of the selected columns can be read
    under the columns' names; and when it returns, the attribute of every
    selected column was read and the dictionary has, under the column's
    name, the live value when that is not [None]; when it is [None], the
    column's default if that is statically an integer, a string or a
    boolean, and [None] for every other form of default. *)
Theorem export_unpersisted_column self m include exclude c :
  model_persistent m = false ->
  NoDup (column_name <$> mapper_c (model_mapper m)) ->
  c ∈ mapper_c (model_mapper m) ->
  column_selected include (exclude ++ self_exclude self) (column_name c) = true ->
  ((forall c', c' ∈ mapper_c (model_mapper m) ->
      column_selected include (exclude ++ self_exclude self) (column_name c') = true ->
      is_ok (getattr m (column_name c')) = true) ->
   exists v, ExportData_call self (OModel m) include exclude = Ok v)
  /\ (forall v, ExportData_call self (OModel m) include exclude = Ok v ->
      exists data live w,
        v = VDict data
        /\ getattr m (column_name c) = Ok live
        /\ dict_get (column_name c) data = Some w
        /\ (live <> VNone -> w = live)
        /\ (live = VNone ->
            forall d, column_default c = ColumnDefault (ArgScalar d) ->
                      ((exists n, d = VInt n) \/ (exists s, d = VStr s)
                       \/ (exists b, d = VBool b)) ->
                      w = d)
        /\ (live = VNone ->
            (forall d, column_default c = ColumnDefault (ArgScalar d) ->
                       ~ ((exists n, d = VInt n) \/ (exists s, d = VStr s)
                          \/ (exists b, d = VBool b))) ->
            w = VNone)).
Proof.
  intros Hp Hnd Hin Hsel. split.
  { intros Hread. rewrite ExportData_call_model, Hp. cbv zeta.
    destruct (export_columns_ok m false include (exclude ++ self_exclude self)
                (mapper_c (model_mapper m)) [] Hread) as [data ->].
    simpl. eauto. }
  intros v (columns_data & data & Hcols & -> & Hrel)%ExportData_call_model_inv.
  rewrite Hp in Hcols, Hrel. subst data.
  destruct (export_columns_get _ _ _ _ _ _ _ c Hnd Hin Hsel Hcols) as (live & Hlive & Hget).
  exists columns_data, live, (column_export false c live).
  split; [done|]. split; [done|]. split; [done|].
  unfold column_export, _get_column_default. clear Hlive Hget.
  destruct live; simpl; try (split; [done|]; split; [done|]; done).
  split; [done|]. split.
  - intros _ d -> [[n ->]|[[s ->]|[b ->]]]; done.
  - intros _ Hnot. destruct (column_default c) as [|[d| |]|]; try done.
    destruct d; simpl; try done; exfalso; eapply Hnot; eauto.
Qed.

Lemma export_unpersisted_column_witness :
  (exists v, export_from_sqla_object (OModel new_user) [] [] = Ok v)
  /\ exists data live w,
       VDict [("id", VNone); ("email", VNone); ("active", VBool false)] = VDict data
       /\ getattr new_user "active" = Ok live
       /\ dict_get "active" data = Some w
       /\ (live <> VNone -> w = live)
       /\ (live = VNone ->
           forall d, column_default active_column = ColumnDefault (ArgScalar d) ->
                     ((exists n, d = VInt n) \/ (exists s, d = VStr s)
                      \/ (exists b, d = VBool b)) ->
                     w = d)
       /\ (live = VNone ->
           (forall d, column_default active_column = ColumnDefault (ArgScalar d) ->
                      ~ ((exists n, d = VInt n) \/ (exists s, d = VStr s)
                         \/ (exists b, d = VBool b))) ->
           w = VNone).
Proof.
  assert (NoDup (column_name <$> mapper_c (model_mapper new_user))) as Hnd.
  { apply (bool_decide_unpack _). reflexivity. }
  assert (active_column ∈ mapper_c (model_mapper new_user)) as Hin.
  { apply list_elem_of_further, list_elem_of_further, list_elem_of_here. }
  destruct (export_unpersisted_column {| self_exclude := ["org_id"] |} new_user [] []
              active_column eq_refl Hnd Hin eq_refl) as [Hreturns Hentry].
  split.
  - apply Hreturns. intros c' Hc' _.
    repeat (apply elem_of_cons in Hc' as [->|Hc']; [reflexivity|]).
    by apply elem_of_nil in Hc'.
  - exact (Hentry _ eq_refl).
Defined.

(** The scenario of the specification: only [active] has a default that is
    substituted. *)
Example export_new_user :
  export_from_sqla_object (OModel new_user) [] []
  = Ok (VDict [("id", VNone); ("email", VNone); ("active", VBool false)]).
Proof. reflexivity. Qed.

(** C7: the export of a persisted instance (its relationship keys distinct)
    has no key for a relationship that is not loaded, the key being no
    column name; and a loaded relationship that is not excluded and holds
    [None] is a key of the export, with the value [None]. *)
Theorem export_unloaded_and_none self m include exclude v :
  model_persistent m = true ->
  NoDup (model_relationships m).*1 ->
  ExportData_call self (OModel m) include exclude = Ok v ->
  exists data, v = VDict data
    /\ (forall key, key ∈ model_unloaded m ->
                    key ∉ column_name <$> mapper_c (model_mapper m) ->
                    key ∉ dict_keys data)
    /\ (forall key, (key, ONone) ∈ model_relationships m ->
                    key ∉ model_unloaded m ->
                    key ∉ exclude ++ self_exclude self ->
                    key ∈ dict_keys data /\ dict_get key data = Some VNone).
Proof.
  intros Hp Hnd Hcall.
  destruct (ExportData_call_model_keys _ _ _ _ _ Hcall) as (data & -> & Hkeys).
  exists data. split; [done|]. split.
  - intros key Hun Hcol Hin.
    destruct (Hkeys _ Hin) as [[? _]|(_ & _ & ? & _)]; done.
  - intros key Hin Hload Hex.
    apply ExportData_call_model_inv in Hcall
      as (columns_data & data' & Hcols & [= <-] & Hrel).
    rewrite Hp in Hrel.
    destruct (export_relationships_get _ _ _ _ _ _ _ _ Hnd Hin Hload Hex Hrel)
      as (w & Hw & Hget).
    injection Hw as <-.
    split; [|done]. apply dict_get_is_Some. by rewrite Hget.
Qed.

Lemma export_unloaded_and_none_witness :
  ("drafts" ∉ dict_keys [("id", VInt 1); ("name", VStr "ann");
                         ("posts", VList [VDict [("id", VInt 7); ("name", VStr "hello")]]);
                         ("profile", VNone)])
  /\ dict_get "profile" [("id", VInt 1); ("name", VStr "ann");
                         ("posts", VList [VDict [("id", VInt 7); ("name", VStr "hello")]]);
                         ("profile", VNone)] = Some VNone.
Proof.
  assert (NoDup (model_relationships
                   (author (OList [OModel (post 7 "hello")]) ONone)).*1) as Hnd.
  { apply (bool_decide_unpack _). exact I. }
  destruct (export_unloaded_and_none {| self_exclude := ["org_id"] |}
              (author (OList [OModel (post 7 "hello")]) ONone) [] [] _
              eq_refl Hnd eq_refl)
    as (data & Heq & Hunloaded & Hnone).
  injection Heq as <-. split.
  - apply Hunloaded; apply (bool_decide_unpack _); reflexivity.
  - apply Hnone.
    + apply list_elem_of_further, list_elem_of_here.
    + apply (bool_decide_unpack _). reflexivity.
    + apply (bool_decide_unpack _). reflexivity.
Defined.

(** What the two list comprehensions produce, member by member. *)
Lemma custom_exports_Forall2 items include exclude vs :
  custom_exports items include exclude = Ok vs ->
  Forall2 (fun item w => exists export_data,
             export_data_of item = Some export_data
             /\ export_data include exclude = Ok w) items vs.
Proof.
  revert vs. induction items as [|item rest IH]; intros vs; simpl.
  - intros [= <-]. constructor.
  - destruct (export_data_of item) as [f|] eqn:Hitem; [|done].
    destruct (f include exclude) as [w|e] eqn:Hf; simpl; [|done].
    destruct (custom_exports rest include exclude) as [ws|e]; simpl; [|done].
    intros [= <-]. constructor; [by exists f|by apply IH].
Qed.

Lemma export_each_Forall2 rec items vs :
  export_each rec items = Ok vs ->
  Forall2 (fun item w => rec item = Ok w) items vs.
Proof.
  revert vs. induction items as [|item rest IH]; intros vs; simpl.
  - intros [= <-]. constructor.
  - destruct (rec item) as [w|e] eqn:Hw; simpl; [|done].
    destruct (export_each rec rest) as [ws|e]; simpl; [|done].
    intros [= <-]. constructor; [done|by apply IH].
Qed.

(** A list is exported member by member, in order: through the members'
    own [export_data], or, when the first member has none, through
    [__call__] itself. *)
Lemma ExportData_call_list_members self items include exclude v :
  ExportData_call self (OList items) include exclude = Ok v ->
  exists vs, v = VList vs
    /\ (Forall2 (fun item w => exists export_data,
                   export_data_of item = Some export_data
                   /\ export_data include exclude = Ok w) items vs
        \/ Forall2 (fun item w => ExportData_call self item include exclude = Ok w)
             items vs).
Proof.
  rewrite ExportData_call_list.
  destruct (custom_exports items include exclude) as [vs|e] eqn:Hc.
  - intros [= <-]. exists vs. split; [done|]. left.
    by apply custom_exports_Forall2.
  - destruct e; try done.
    destruct (has_export_data _); [done|].
    destruct (export_each _ items) as [vs|e] eqn:He; simpl; [|done].
    intros [= <-]. exists vs. split; [done|]. right.
    by apply export_each_Forall2 in He.
Qed.

(** A list held by a relationship is exported only when it has members. *)
Lemma relationship_export_list rec items :
  relationship_export rec (OList items) =
    if bool_decide (items = []) then Ok VNone else rec (OList items).
Proof.
  unfold relationship_export. simpl. by destruct (bool_decide (items = [])).
Qed.

(** C8 (as amended): in the export of a persisted instance (its
    relationship keys distinct), a loaded to-many relationship that is not
    excluded maps to the ordered sequence of the exports of its members
    when it has members, each member exported with the default [include]
    and [exclude]; a loaded to-many relationship without members maps to
    [None]. *)
Theorem export_to_many self m include exclude v key items :
  model_persistent m = true ->
  NoDup (model_relationships m).*1 ->
  (key, OList items) ∈ model_relationships m ->
  key ∉ model_unloaded m ->
  key ∉ exclude ++ self_exclude self ->
  ExportData_call self (OModel m) include exclude = Ok v ->
  exists data, v = VDict data /\
    match items with
    | [] => dict_get key data = Some VNone
    | _ :: _ =>
        exists vs, dict_get key data = Some (VList vs)
          /\ (Forall2 (fun item w => exists export_data,
                         export_data_of item = Some export_data
                         /\ export_data [] [] = Ok w) items vs
              \/ Forall2 (fun item w => ExportData_call self item [] [] = Ok w)
                   items vs)
    end.
Proof.
  intros Hp Hnd Hin Hload Hex Hcall.
  apply ExportData_call_model_inv in Hcall
    as (columns_data & data & Hcols & -> & Hrel).
  rewrite Hp in Hrel. exists data. split; [done|].
  destruct (export_relationships_get _ _ _ _ _ _ _ _ Hnd Hin Hload Hex Hrel)
    as (w & Hw & Hget).
  rewrite relationship_export_list in Hw.
  destruct items as [|item rest].
  - rewrite bool_decide_eq_true_2 in Hw by done. by injection Hw as <-.
  - rewrite bool_decide_eq_false_2 in Hw by done.
    apply ExportData_call_list_members in Hw as (vs & -> & Hvs).
    by exists vs.
Qed.

(** A collection without members is not exported as the empty sequence:
    the key is there, and its value is [None]. *)
Lemma export_to_many_empty :
  export_from_sqla_object (OModel (author (OList []) ONone)) [] []
  = Ok (VDict [("id", VInt 1); ("name", VStr "ann");
               ("posts", VNone); ("profile", VNone)])
  /\ VNone <> VList [].
Proof. split; [reflexivity|discriminate]. Qed.

Lemma export_to_many_witness :
  exists vs,
    dict_get "posts"
      [("id", VInt 1); ("name", VStr "ann");
       ("posts", VList [VDict [("id", VInt 7); ("name", VStr "hello")];
                        VDict [("id", VInt 8); ("name", VStr "again")]]);
       ("profile", VNone)] = Some (VList vs)
    /\ (Forall2 (fun item w => exists export_data,
                   export_data_of item = Some export_data
                   /\ export_data [] [] = Ok w)
          [OModel (post 7 "hello"); OModel (post 8 "again")] vs
        \/ Forall2 (fun item w => export_from_sqla_object item [] [] = Ok w)
             [OModel (post 7 "hello"); OModel (post 8 "again")] vs).
Proof.
  pose (posts := [OModel (post 7 "hello"); OModel (post 8 "again")]).
  assert (NoDup (model_relationships (author (OList posts) ONone)).*1) as Hnd.
  { apply (bool_decide_unpack _). exact I. }
  assert ((("posts" : string), OList posts)
            ∈ model_relationships (author (OList posts) ONone)) as Hin.
  { apply list_elem_of_here. }
  assert ("posts" ∉ model_unloaded (author (OList posts) ONone)) as Hload.
  { apply (bool_decide_unpack _). exact I. }
  assert ("posts" ∉ [] ++ ["org_id"]) as Hex.
  { apply (bool_decide_unpack _). exact I. }
  destruct (export_to_many {| self_exclude := ["org_id"] |}
              (author (OList posts) ONone) [] [] _ "posts" posts
              eq_refl Hnd Hin Hload Hex eq_refl)
    as (data & Heq & Hposts).
  injection Heq as <-. exact Hposts.
Defined.

(** *** The generic path returns *)

Lemma export_each_ok rec items :
  Forall (fun item => exists v, rec item = Ok v) items ->
  exists vs, export_each rec items = Ok vs.
Proof.
  induction 1 as [|item rest [v Hv] _ [vs Hvs]]; simpl; [eauto|].
  rewrite Hv. simpl. rewrite Hvs. simpl. eauto.
Qed.

Lemma custom_exports_generic items include exclude :
  forallb generic items = true ->
  items = [] \/ (exists msg, custom_exports items include exclude = Raise (AttributeError msg))
                /\ has_export_data (default ONone (head items)) = false.
Proof.
  destruct items as [|item rest]; [by left|]. simpl.
  intros [Hitem _]%andb_true_iff. right.
  assert (export_data_of item = None) as Hnone.
  { destruct item as [| | |m]; try done. simpl in *.
    by destruct (model_export_data m). }
  rewrite Hnone. split; [eauto|].
  unfold has_export_data. rewrite Hnone. apply bool_decide_eq_false_2.
  by intros [? ?].
Qed.

Lemma export_relationships_ok rec unloaded exclude relationships data :
  Forall (fun kr : string * pyobj =>
            export_data_of kr.2 = None
            /\ (truthy kr.2 = true -> exists v, rec kr.2 = Ok v)) relationships ->
  exists data', export_relationships rec unloaded exclude relationships data = Ok data'.
Proof.
  intros Hall. revert data.
  induction Hall as [|[key r] rest [Hnone Hrec] _ IH]; intros data; [simpl; eauto|].
  rewrite export_relationships_cons.
  destruct (negb (py_in key unloaded) && negb (py_in key exclude)); [|apply IH].
  unfold relationship_export. simpl in *. rewrite Hnone.
  destruct (truthy r); [|apply IH].
  destruct Hrec as [v ->]; [done|]. apply IH.
Qed.

(** X22: whatever [include] and [exclude] are, [__call__] returns on a
    generic object: an instance, or a list of instances, none of which has
    an [export_data] of its own, on each of which the columns can be read
    under their names, and whose relationships hold nothing but such
    instances, such lists, [None] and empty lists.  As every value of
    [pyobj], the object reaches no instance from itself. *)
Lemma ExportData_call_generic self o :
  generic o = true ->
  forall include exclude, exists v, ExportData_call self o include exclude = Ok v.
Proof.
  induction o as [|v|items IH|m IH] using pyobj_nested_ind; try done.
  - intros Hg include exclude. rewrite ExportData_call_list.
    destruct (custom_exports_generic items include exclude Hg) as [->|[[msg ->] ->]];
      [simpl; eauto|].
    destruct (export_each_ok (fun item => ExportData_call self item include exclude) items)
      as [vs ->]; [|simpl; eauto].
    simpl in Hg. apply Is_true_true, forallb_True in Hg.
    apply Forall_forall. intros item Hin.
    rewrite Forall_forall in IH, Hg. apply IH; [done|].
    by apply Is_true_true, Hg.
  - intros Hg include exclude. simpl in Hg.
    rewrite ExportData_call_model. cbv zeta.
    destruct (model_export_data m); [done|].
    apply andb_true_iff in Hg as [Hread Hg].
    destruct (export_columns_ok m (model_persistent m) include
                (exclude ++ self_exclude self) (mapper_c (model_mapper m)) [])
      as [columns_data ->].
    { intros c Hin _. unfold readable in Hread.
      apply Is_true_true, forallb_True in Hread.
      rewrite Forall_forall in Hread. by apply Is_true_true, Hread. }
    simpl. destruct (model_persistent m); [|eauto].
    destruct (export_relationships_ok
                (fun rproperty => ExportData_call self rproperty [] [])
                (model_unloaded m) (exclude ++ self_exclude self)
                (model_relationships m) columns_data) as [data ->]; [|simpl; eauto].
    apply Is_true_true, forallb_True in Hg.
    apply Forall_forall. intros [key r] Hin.
    rewrite Forall_forall in IH, Hg.
    specialize (IH _ Hin). specialize (Hg _ Hin). simpl in *.
    apply Is_true_true, orb_true_iff in Hg as [Hfalsy|Hg].
    + apply negb_true_iff in Hfalsy. rewrite Hfalsy.
      split; [by destruct r|done].
    + split; [|intros _; by apply IH].
      destruct r as [|w|items|m']; try done. simpl in *.
      by destruct (model_export_data m').
Qed.

(** ** Validator *)

(** The scenarios of the specification, through [validate]: a lookup that
    finds nothing accepts; a match that is another object is a violation on
    [email]; the instance being updated may keep its own address. *)
Example validate_unique_scenarios :
  verdict (validate no_other_rules (Validator_init unique_email (Some one_user))
             [("email", VStr "c@d.com")] None false)
  = Some (true, [])
  /\ verdict (validate no_other_rules (Validator_init unique_email (Some one_user))
                [("email", VStr "a@b.com")] None false)
     = Some (false, [("email", MustBeUnique (VStr "a@b.com"))])
  /\ verdict (validate no_other_rules (Validator_init unique_email (Some one_user))
                [("email", VStr "a@b.com")] (Some 2%nat) true)
     = Some (false, [("email", MustBeUnique (VStr "a@b.com"))])
  /\ verdict (validate no_other_rules (Validator_init unique_email (Some one_user))
                [("email", VStr "a@b.com")] (Some 1%nat) true)
     = Some (true, []).
Proof. repeat split; reflexivity. Qed.

(** The handler raises as soon as it runs without a [model_class]. *)
Lemma _validate_unique_no_class self field v :
  model_class self = None ->
  _validate_unique self true field v = Raise (RuntimeError unique_needs_class).
Proof. intros H. unfold _validate_unique. by rewrite H. Qed.

(** An error the handler raises is that one, or the one the lookup
    raised. *)
Lemma _validate_unique_raise self is_unique field v e :
  _validate_unique self is_unique field v = Raise e ->
  is_unique = true
  /\ ((e = RuntimeError unique_needs_class /\ model_class self = None)
      \/ exists query, model_class self = Some query /\ query field v = Raise e).
Proof.
  unfold _validate_unique. destruct is_unique; [|done].
  destruct (model_class self) as [query|]; [|intros [= <-]; auto].
  destruct (query field v) as [[found|]|e'] eqn:Hq; simpl.
  - by destruct (negb _ || negb _).
  - done.
  - intros [= <-]. split; [done|]. right. eauto.
Qed.

Lemma _validate_unique_frame self is_unique field v self' :
  _validate_unique self is_unique field v = Ok self' ->
  same_configuration self self'.
Proof.
  unfold _validate_unique, same_configuration. destruct is_unique; [|by intros [= <-]].
  destruct (model_class self) as [query|] eqn:Hq; [|done].
  destruct (query field v) as [[found|]|e]; simpl; [|by intros [= <-]|done].
  destruct (negb _ || negb _); by intros [= <-].
Qed.


Lemma add_errors_frame self errors : same_configuration self (add_errors self errors).
Proof. done. Qed.



Lemma same_configuration_trans s1 s2 s3 :
  same_configuration s1 s2 -> same_configuration s2 s3 -> same_configuration s1 s3.
Proof. unfold same_configuration. intros (? & ? & ? & ?) (? & ? & ? & ?). repeat split; congruence. Qed.

Section BaseClass.
Context (base : base_class).

Lemma validate_definitions_frame definitions field v self self' :
  validate_definitions base definitions field v self = Ok self' ->
  same_configuration self self'.
Proof.
  unfold validate_definitions.
  destruct (inherited_rules base definitions field v self) as [errors continue].
  destruct continue; [|by intros [= <-]].
  destruct (definitions !! "unique") as [c|]; [|by intros [= <-]].
  intros H. by apply _validate_unique_frame in H.
Qed.

Lemma validate_definitions_raise definitions field v self e :
  validate_definitions base definitions field v self = Raise e ->
  (exists is_unique, definitions !! "unique" = Some is_unique
                     /\ value_truthy is_unique = true)
  /\ ((e = RuntimeError unique_needs_class /\ model_class self = None)
      \/ exists query, model_class self = Some query /\ query field v = Raise e).
Proof.
  unfold validate_definitions.
  destruct (inherited_rules base definitions field v self) as [errors continue].
  destruct continue; [|done].
  destruct (definitions !! "unique") as [c|]; [|done].
  intros H. apply _validate_unique_raise in H as (? & ?). eauto.
Qed.

(** Without a [model_class] the rules of a field with [unique: True]
    raise, once the inherited handlers let [unique] run. *)
Lemma validate_definitions_no_class definitions field v self is_unique :
  model_class self = None ->
  definitions !! "unique" = Some is_unique ->
  value_truthy is_unique = true ->
  (inherited_rules base definitions field v self).2 = true ->
  validate_definitions base definitions field v self
  = Raise (RuntimeError unique_needs_class).
Proof.
  intros Hnone Hu Ht Hcont. unfold validate_definitions.
  destruct (inherited_rules base definitions field v self) as [errors continue].
  simpl in Hcont. subst continue. rewrite Hu, Ht.
  by apply _validate_unique_no_class.
Qed.



Lemma validate_fields_frame document self self' :
  validate_fields base document self = Ok self' ->
  same_configuration self self'.
Proof.
  revert self. induction document as [|[field v] rest IH]; intros self; simpl.
  { by intros [= <-]. }
  destruct (validator_schema self !! field) as [definitions|].
  - destruct (validate_definitions base definitions field v self) as [s|e] eqn:Hd;
      simpl; [|done].
    intros H. apply validate_definitions_frame in Hd. apply IH in H.
    by eapply same_configuration_trans.
  - intros H. apply IH in H.
    eapply same_configuration_trans; [apply add_errors_frame|done].
Qed.


(** [validate_fields] raises only at a field of the document whose
    rule-set asks for [unique], and raises the error of the handler or the
    one the lookup raised on that field. *)
Lemma validate_fields_raise document self e :
  validate_fields base document self = Raise e ->
  exists field v definitions is_unique,
    (field, v) ∈ document
    /\ validator_schema self !! field = Some definitions
    /\ definitions !! "unique" = Some is_unique
    /\ value_truthy is_unique = true
    /\ ((e = RuntimeError unique_needs_class /\ model_class self = None)
        \/ exists query, model_class self = Some query /\ query field v = Raise e).
Proof.
  revert self. induction document as [|[field v] rest IH]; intros self; simpl; [done|].
  destruct (validator_schema self !! field) as [definitions|] eqn:Hs.
  - destruct (validate_definitions base definitions field v self) as [self'|e'] eqn:Hd;
      simpl.
    + apply validate_definitions_frame in Hd as (Hc & Hsch & _).
      intros (f & w & d & c & Hin & Hl & Hu & Ht & Hor)%IH.
      rewrite Hc in Hor. rewrite Hsch in Hl.
      exists f, w, d, c. by rewrite elem_of_cons; auto 10.
    + intros [= <-].
      apply validate_definitions_raise in Hd as ((c & Hu & Ht) & Hor).
      exists field, v, definitions, c. by rewrite elem_of_cons; auto 10.
  - intros (f & w & d & c & Hin & Hl & Hu & Ht & Hor)%IH. simpl in *.
    exists f, w, d, c. by rewrite elem_of_cons; auto 10.
Qed.

(** Without a [model_class], a field of the document with [unique: True]
    makes [validate_fields] raise, wherever the field stands. *)
Lemma validate_fields_no_class document self field v definitions is_unique :
  model_class self = None ->
  (field, v) ∈ document ->
  validator_schema self !! field = Some definitions ->
  definitions !! "unique" = Some is_unique ->
  value_truthy is_unique = true ->
  (forall s, (inherited_rules base definitions field v s).2 = true) ->
  validate_fields base document self = Raise (RuntimeError unique_needs_class).
Proof.
  intros Hnone Hin Hs Hu Ht Hcont. revert self Hnone Hs.
  induction document as [|[f0 v0] rest IH]; intros self Hnone Hs; simpl.
  { by apply elem_of_nil in Hin. }
  destruct (validator_schema self !! f0) as [d0|] eqn:Hs0.
  - destruct (validate_definitions base d0 f0 v0 self) as [s1|e] eqn:Hd; simpl.
    + apply elem_of_cons in Hin as [[= <- <-]|Hin].
      * rewrite Hs in Hs0. injection Hs0 as <-.
        rewrite (validate_definitions_no_class _ _ _ _ is_unique) in Hd by auto. done.
      * apply validate_definitions_frame in Hd as (Hc & Hsch & _).
        apply IH; [done|congruence|congruence].
    + apply validate_definitions_raise in Hd as (_ & [[-> _]|(q & Hq & _)]); [done|].
      congruence.
  - apply elem_of_cons in Hin as [[= <- <-]|Hin]; [congruence|].
    by apply IH.
Qed.



End BaseClass.

(** With a lookup, what [validate] raises is what the lookup raised for a
    field of the document. *)
Lemma validate_raise_lookup base self document model update query e :
  model_class self = Some query ->
  validate base self document model update = Raise e ->
  exists field v, (field, v) ∈ document /\ query field v = Raise e.
Proof.
  intros Hq. unfold validate.
  destruct (validate_fields base document (validate_start self model update))
    as [self'|e'] eqn:Hf; simpl; [done|].
  intros [= <-].
  apply validate_fields_raise in Hf
    as (f & w & _ & _ & Hin & _ & _ & _ & [[_ Hnone]|(q & Hq' & Hr)]).
  - simpl in Hnone. congruence.
  - simpl in Hq'. rewrite Hq in Hq'. injection Hq' as <-. eauto.
Qed.

Lemma validate_returns base self document model update query :
  model_class self = Some query ->
  (forall field v, (field, v) ∈ document -> is_ok (query field v) = true) ->
  exists accepted self', validate base self document model update = Ok (accepted, self').
Proof.
  intros Hq Hok.
  destruct (validate base self document model update) as [[accepted self']|e] eqn:Hv;
    [eauto|].
  destruct (validate_raise_lookup _ _ _ _ _ _ _ Hq Hv) as (f & w & Hin & Hr).
  specialize (Hok f w Hin). by rewrite Hr in Hok.
Qed.




(** C3 (as amended): on a validator constructed without a [model_class],
    the handler of the [unique] rule raises the RuntimeError of line 249
    whenever it runs with the constraint [True], before any lookup and
    without an entry in the error list; [validate] raises no other error,
    and raises only if some field of the document has [unique: True] in its
    rule-set; it does raise whenever a field of the document has, wherever
    the field stands in the document, provided the inherited handlers let
    that field's remaining rules run. *)
Theorem validate_without_model_class base self document model update :
  model_class self = None ->
  (forall field v,
     _validate_unique (validate_start self model update) true field v
     = Raise (RuntimeError unique_needs_class))
  /\ (forall e, validate base self document model update = Raise e ->
        e = RuntimeError unique_needs_class
        /\ exists field v definitions is_unique,
             (field, v) ∈ document
             /\ validator_schema self !! field = Some definitions
             /\ definitions !! "unique" = Some is_unique
             /\ value_truthy is_unique = true)
  /\ (forall field v definitions is_unique,
        (field, v) ∈ document ->
        validator_schema self !! field = Some definitions ->
        definitions !! "unique" = Some is_unique ->
        value_truthy is_unique = true ->
        (forall s, (inherited_rules base definitions field v s).2 = true) ->
        validate base self document model update
        = Raise (RuntimeError unique_needs_class)).
Proof.
  intros Hnone. split; [|split].
  - intros field v. by apply _validate_unique_no_class.
  - intros e. unfold validate.
    destruct (validate_fields base document _) as [self'|e'] eqn:Hf; simpl; [done|].
    intros [= <-].
    apply validate_fields_raise in Hf
      as (f & w & d & c & Hin & Hs & Hu & Ht & [[-> _]|(q & Hq & _)]).
    + split; [done|]. by exists f, w, d, c.
    + simpl in Hq. congruence.
  - intros field v definitions c Hin Hs Hu Ht Hcont.
    unfold validate.
    by rewrite (validate_fields_no_class base document _ field v definitions c).
Qed.

(** Documents that never reach the rule raise nothing: without a lookup,
    the empty document and a document without [email] are validated, and
    accepted, against a schema with [unique] on [email] (the one other
    rule, [type] on [name], has nothing to record for a string). *)
Lemma validate_without_model_class_accepts :
  verdict (validate no_other_rules (Validator_init unique_email None) [] None false)
  = Some (true, [])
  /\ verdict (validate no_other_rules
                (Validator_init (<["name" := {[ "type" := VStr "string" ]}]> unique_email) None)
                [("name", VStr "ann")] None false)
     = Some (true, []).
Proof. split; reflexivity. Qed.

Lemma validate_without_model_class_witness :
  validate no_other_rules
    (Validator_init (<["name" := {[ "type" := VStr "string" ]}]> unique_email) None)
    [("name", VStr "ann"); ("email", VStr "a@b.com")] None false
  = Raise (RuntimeError unique_needs_class).
Proof.
  destruct (validate_without_model_class no_other_rules
              (Validator_init (<["name" := {[ "type" := VStr "string" ]}]> unique_email) None)
              [("name", VStr "ann"); ("email", VStr "a@b.com")] None false eq_refl)
    as (_ & _ & Hany).
  exact (Hany "email" (VStr "a@b.com") {[ "unique" := VBool true ]} (VBool true)
           (list_elem_of_further _ _ _ (list_elem_of_here _ _))
           eq_refl eq_refl eq_refl (fun _ => eq_refl)).
Defined.

(* ================================================================== *)
(** * Further properties *)

(** ** get_key_path *)

Lemma get_key_path_nil key : get_key_path key [] = None.
Proof. reflexivity. Qed.

(** One turn of the loop. *)
Lemma get_key_path_cons key map_key v rest :
  get_key_path key ((map_key, v) :: rest) =
    if bool_decide (map_key = key) then Some [map_key]
    else match v with
         | VDict inner =>
             match get_key_path key inner with
             | Some (k :: path) => Some (map_key :: k :: path)
             | _ => get_key_path key rest
             end
         | _ => get_key_path key rest
         end.
Proof.
  unfold get_key_path. simpl.
  destruct (bool_decide (map_key = key)); [done|].
  destruct v; try done.
  change (get_key_path_in key (VDict items))
    with (get_key_path_items (get_key_path_in key) key items).
  destruct (get_key_path_items _ key items) as [[|k path]|]; done.
Qed.

(** A path that is returned is never empty. *)
Lemma get_key_path_nonempty key _map : get_key_path key _map <> Some [].
Proof.
  induction _map as [|[map_key v] rest IH]; [done|].
  rewrite get_key_path_cons.
  destruct (bool_decide (map_key = key)); [done|].
  destruct v; try done.
  by destruct (get_key_path key items) as [[|k path]|].
Qed.

Lemma key_path_mono m m' path :
  (forall kv, kv ∈ m -> kv ∈ m') -> key_path m path -> key_path m' path.
Proof.
  intros Hsub Hp. destruct Hp as [m k v Hin|m k inner path Hin Hp].
  - eapply key_path_last. eauto.
  - eapply key_path_step; eauto.
Qed.

Lemma get_key_path_sound_items key m :
  Forall (fun kv : string * value =>
            forall inner, kv.2 = VDict inner ->
            forall path, get_key_path key inner = Some path ->
                         key_path inner path /\ last path = Some key) m ->
  forall path, get_key_path key m = Some path ->
               key_path m path /\ last path = Some key.
Proof.
  induction 1 as [|[map_key v] rest Hv _ IH]; intros path; [done|].
  assert (forall p, get_key_path key rest = Some p ->
                    key_path ((map_key, v) :: rest) p /\ last p = Some key) as Hrest.
  { intros p [Hp ?]%IH. split; [|done].
    eapply key_path_mono; [|done]. intros kv ?. by apply list_elem_of_further. }
  rewrite get_key_path_cons.
  destruct (decide (map_key = key)) as [->|Hne].
  - rewrite bool_decide_eq_true_2 by done. intros [= <-].
    split; [|done]. eapply key_path_last, list_elem_of_here.
  - rewrite bool_decide_eq_false_2 by done.
    destruct v as [| | | | | |inner]; try apply Hrest.
    destruct (get_key_path key inner) as [[|k p]|] eqn:Hinner; try apply Hrest.
    intros [= <-]. destruct (Hv inner eq_refl _ Hinner) as [Hp Hlast].
    split.
    + eapply key_path_step; [apply list_elem_of_here|done].
    + by rewrite last_cons, Hlast.
Qed.

Lemma get_key_path_sound_value key v :
  forall m, v = VDict m ->
  forall path, get_key_path key m = Some path ->
               key_path m path /\ last path = Some key.
Proof.
  induction v as [| | | | |items IH|items IH] using value_nested_ind;
    intros m Heq; try discriminate.
  injection Heq as ->. apply get_key_path_sound_items.
  eapply Forall_impl; [exact IH|].
  intros [k v] Hv inner Hinner. by apply Hv.
Qed.

(** X18: a path that [get_key_path] returns is not empty, ends with the key
    and leads to it: every key before the last names an entry that is a
    dictionary, in which the rest of the path goes on. *)
Theorem get_key_path_sound key _map path :
  get_key_path key _map = Some path ->
  key_path _map path /\ last path = Some key /\ path <> [].
Proof.
  intros H.
  destruct (get_key_path_sound_value key (VDict _map) _map eq_refl path H) as [? ?].
  split; [done|]. split; [done|]. intros ->. by apply (get_key_path_nonempty key _map).
Qed.

Lemma get_key_path_sound_witness :
  key_path [("a", VInt 1); ("b", VDict [("c", VDict [("d", VNone)])])] ["b"; "c"; "d"]
  /\ last ["b"; "c"; "d"] = Some "d" /\ ["b"; "c"; "d"] <> [].
Proof.
  exact (get_key_path_sound "d"
           [("a", VInt 1); ("b", VDict [("c", VDict [("d", VNone)])])]
           ["b"; "c"; "d"] eq_refl).
Defined.

(** A key of the dictionary itself is found. *)
Lemma get_key_path_top key _map :
  key ∈ dict_keys _map -> is_Some (get_key_path key _map).
Proof.
  unfold dict_keys. induction _map as [|[map_key v] rest IH]; intros Hin.
  - by apply elem_of_nil in Hin.
  - rewrite get_key_path_cons. rewrite fmap_cons in Hin.
    apply elem_of_cons in Hin as [->|Hin]; simpl.
    + by rewrite bool_decide_eq_true_2.
    + destruct (bool_decide (map_key = key)); [done|].
      destruct v; try by apply IH.
      destruct (get_key_path key items) as [[|k path]|]; try by apply IH. done.
Qed.

(** So is a key found in a dictionary that is an entry. *)
Lemma get_key_path_inner key _map k inner :
  (k, VDict inner) ∈ _map ->
  is_Some (get_key_path key inner) ->
  is_Some (get_key_path key _map).
Proof.
  intros Hin [path Hpath]. induction _map as [|[map_key v] rest IH].
  - by apply elem_of_nil in Hin.
  - rewrite get_key_path_cons.
    destruct (bool_decide (map_key = key)); [done|].
    apply elem_of_cons in Hin as [[= <- <-]|Hin].
    + rewrite Hpath. destruct path as [|k2 path2]; [|done].
      by apply get_key_path_nonempty in Hpath.
    + destruct v; try by apply IH.
      destruct (get_key_path key items) as [[|k2 path2]|]; try by apply IH. done.
Qed.

(** X19: [get_key_path] returns [None] exactly when no path through nested
    dictionaries leads to the key; a key held only inside a list is not
    found. *)
Theorem get_key_path_None key _map :
  get_key_path key _map = None
  <-> ~ exists path, key_path _map path /\ last path = Some key.
Proof.
  split.
  - intros Hnone (path & Hpath & Hlast).
    assert (is_Some (get_key_path key _map)) as [p Hp]; [|congruence].
    clear Hnone. induction Hpath as [m k v Hin|m k inner path Hin Hpath IH].
    + injection Hlast as ->. apply get_key_path_top.
      apply list_elem_of_fmap. by exists (key, v).
    + destruct path as [|k2 path2].
      * inversion Hpath.
      * rewrite last_cons_cons in Hlast.
        eapply get_key_path_inner; [done|]. by apply IH.
  - intros Hno. destruct (get_key_path key _map) as [path|] eqn:Hp; [|done].
    exfalso. apply Hno. exists path.
    destruct (get_key_path_sound_value key (VDict _map) _map eq_refl path Hp).
    done.
Qed.

(** The values a list holds are not searched. *)
Example get_key_path_through_list :
  get_key_path "d" [("a", VList [VDict [("d", VNone)]])] = None.
Proof. reflexivity. Qed.

(** X20: the entries are searched in order and each one to its full depth
    before the next: on two dictionaries put one after the other the
    result is the path in the first when there is one, and the path in
    the second otherwise. *)
Theorem get_key_path_app key m1 m2 :
  get_key_path key (m1 ++ m2) =
    match get_key_path key m1 with
    | Some path => Some path
    | None => get_key_path key m2
    end.
Proof.
  induction m1 as [|[map_key v] rest IH]; [done|].
  rewrite <- app_comm_cons, !get_key_path_cons.
  destruct (bool_decide (map_key = key)); [done|].
  destruct v; try done.
  by destruct (get_key_path key items) as [[|k path]|].
Qed.

(** A nested occurrence in an earlier entry goes before the key itself in
    a later entry. *)
Example get_key_path_depth_first :
  get_key_path "d" [("a", VDict [("b", VDict [("d", VNone)])]); ("d", VInt 1)]
  = Some ["a"; "b"; "d"].
Proof. reflexivity. Qed.

(** X21: on a dictionary none of whose values is a dictionary the result
    is the one-key path when the key is there and [None] when it is not. *)
Theorem get_key_path_flat key _map :
  flat _map ->
  get_key_path key _map = if py_in key (dict_keys _map) then Some [key] else None.
Proof.
  unfold flat, dict_keys. induction _map as [|[map_key v] rest IH]; intros Hflat; [done|].
  rewrite get_key_path_cons, fmap_cons, py_in_cons. simpl.
  destruct (decide (map_key = key)) as [->|Hne].
  - by rewrite !bool_decide_eq_true_2.
  - rewrite bool_decide_eq_false_2 by done.
    rewrite (bool_decide_eq_false_2 (key = map_key)) by done. simpl.
    assert (get_key_path key rest
            = if py_in key rest.*1 then Some [key] else None) as Hrest.
    { apply IH. intros k inner Hin. apply (Hflat k inner).
      by apply list_elem_of_further. }
    destruct v; try done.
    exfalso. apply (Hflat map_key items), list_elem_of_here.
Qed.

Lemma get_key_path_flat_witness :
  get_key_path "b" [("a", VInt 1); ("b", VStr "x")]
  = if py_in "b" (dict_keys [("a", VInt 1); ("b", VStr "x")]) then Some ["b"] else None.
Proof.
  apply (get_key_path_flat "b" [("a", VInt 1); ("b", VStr "x")]).
  intros k inner Hin.
  repeat (apply elem_of_cons in Hin as [Hin|Hin]; [discriminate|]).
  by apply elem_of_nil in Hin.
Defined.

(** ** generate_schema: selection and the other rules *)

Lemma selected_true include exclude name :
  selected include exclude name = true
  <-> (include = [] \/ name ∈ include) /\ name ∉ exclude.
Proof.
  unfold selected.
  rewrite andb_true_iff, !negb_true_iff, andb_false_iff, negb_false_iff,
    bool_decide_eq_false, py_in_true, py_in_false.
  destruct include as [|i include']; simpl.
  - split; [intros [_ ?]; auto|intros [_ ?]; split; [left; lia|done]].
  - split.
    + intros [[?|?] ?]; [lia|auto].
    + intros [[?|?] ?]; [done|auto].
Qed.

Lemma lookup_cond_insert (b : bool) (k k' : string) (v : value)
  (prop : gmap string value) :
  (if b then <[k := v]> prop else prop) !! k'
  = if b && bool_decide (k = k') then Some v else prop !! k'.
Proof.
  destruct b; simpl; [|done].
  destruct (decide (k = k')) as [->|Hne].
  - by rewrite bool_decide_eq_true_2, lookup_insert_eq.
  - by rewrite bool_decide_eq_false_2, lookup_insert_ne.
Qed.

(** An entry that is there stays, and a selected column gets one. *)
Lemma loop_lookup_is_Some include exclude exclude_rules columns schema schema' name :
  generate_schema_loop include exclude exclude_rules columns schema = Ok schema' ->
  is_Some (schema !! name)
  \/ (name ∈ column_name <$> columns /\ selected include exclude name = true) ->
  is_Some (schema' !! name).
Proof.
  revert schema. induction columns as [|c rest IH]; intros schema; simpl.
  - intros [= <-] [?|[Hin _]]; [done|]. by apply elem_of_nil in Hin.
  - rewrite elem_of_cons.
    destruct (selected include exclude (column_name c)) eqn:Hsel.
    + destruct (column_rules exclude_rules c) as [prop|e]; simpl; [|done].
      intros Hl H. apply (IH _ Hl).
      destruct (decide (column_name c = name)) as [<-|Hne].
      * left. by rewrite lookup_insert_eq.
      * rewrite lookup_insert_ne by done.
        destruct H as [?|[[?|?] ?]]; [by left|done|by right].
    + intros Hl H. apply (IH _ Hl).
      destruct H as [?|[[->|?] ?]]; [by left|congruence|by right].
Qed.

(** X1: the keys of a generated schema are the names of the selected
    columns: a name is a key exactly when it is the name of a column, is in
    [include] or [include] is empty, and is not in [exclude]; [exclude]
    has the last word. *)
Theorem generate_schema_keys model_class include exclude exclude_rules schema name :
  generate_schema model_class include exclude exclude_rules = Ok schema ->
  is_Some (schema !! name)
  <-> name ∈ column_name <$> mapper_c model_class
      /\ (include = [] \/ name ∈ include)
      /\ name ∉ exclude.
Proof.
  unfold generate_schema. intros Hgen. rewrite <- selected_true. split.
  - intros [prop Hl].
    destruct (loop_lookup_inv _ _ _ _ _ _ _ _ Hgen Hl)
      as [Hempty|(c & Hin & Hn & Hsel & Hr)].
    + by rewrite lookup_empty in Hempty.
    + split; [|done]. apply list_elem_of_fmap. by exists c.
  - intros H. eapply loop_lookup_is_Some; [done|]. by right.
Qed.

Lemma generate_schema_keys_witness :
  is_Some (from_ok ∅ (generate_schema User ["id"; "email"; "phone"] ["email"] None) !! "id")
  <-> "id" ∈ column_name <$> mapper_c User
      /\ (["id"; "email"; "phone"] = [] \/ "id" ∈ ["id"; "email"; "phone"])
      /\ "id" ∉ ["email"].
Proof.
  exact (generate_schema_keys User ["id"; "email"; "phone"] ["email"] None _ "id" eq_refl).
Defined.

(** X2: [generate_schema] returns a schema exactly when the type of every
    selected column is one of int, str, bool, date and datetime; a column
    of another type that is not selected does no harm. *)
Theorem generate_schema_returns model_class include exclude exclude_rules :
  (exists schema, generate_schema model_class include exclude exclude_rules = Ok schema)
  <-> forall c, c ∈ mapper_c model_class ->
                (include = [] \/ column_name c ∈ include) /\ column_name c ∉ exclude ->
                column_python_type c ∈ [py_int; py_str; py_bool; py_date; py_datetime].
Proof.
  split.
  - intros [schema Hgen] c Hin Hsel%selected_true.
    destruct (decide (column_python_type c
                        ∈ [py_int; py_str; py_bool; py_date; py_datetime]))
      as [?|Hno]; [done|].
    unfold generate_schema in Hgen.
    rewrite (loop_unsupported _ _ _ _ _ c Hin Hsel
               (conversions_get_unsupported _ Hno)) in Hgen.
    done.
  - intros Hall. apply generate_schema_ok. intros c Hin Hsel%selected_true.
    specialize (Hall c Hin Hsel).
    repeat (apply elem_of_cons in Hall as [->|Hall]; [done|]).
    by apply elem_of_nil in Hall.
Qed.

(** A float column that [exclude] names does not stop the generation. *)
Example generate_schema_Product_without_price :
  generate_schema Product [] ["price"] None
  = Ok (<["id" := <["readonly" := VBool true]> {[ "type" := VStr "integer" ]}]>
        (<["active" := {[ "type" := VStr "boolean" ]}]> ∅)).
Proof. reflexivity. Qed.

Lemma conversions_get_range t s :
  conversions_get t schema_type_conversions = Some s ->
  s ∈ ["integer"; "string"; "boolean"].
Proof.
  destruct t; simpl; intros [= <-];
    repeat first [apply list_elem_of_here | apply list_elem_of_further].
Qed.

(** The entries of the rule-set of one column. *)
Lemma column_rules_lookup exclude_rules c prop k x :
  column_rules exclude_rules c = Ok prop ->
  prop !! k = Some x ->
  (k = "type" /\ exists t, x = VStr t /\ t ∈ ["integer"; "string"; "boolean"])
  \/ (k = "maxlength" /\ exists n, x = VInt n)
  \/ (k ∈ ["readonly"; "required"; "unique"] /\ x = VBool true).
Proof.
  unfold column_rules.
  destruct (conversions_get _ _) as [t|] eqn:Ht; [|done].
  intros [= <-]. cbv zeta. rewrite !lookup_cond_insert.
  destruct (_ && bool_decide ("unique" = k)) eqn:Hu.
  { apply andb_true_iff in Hu as [_ <-%bool_decide_eq_true].
    intros [= <-]. right. right. split; [|done].
    repeat first [apply list_elem_of_here | apply list_elem_of_further]. }
  destruct (_ && bool_decide ("required" = k)) eqn:Hq.
  { apply andb_true_iff in Hq as [_ <-%bool_decide_eq_true].
    intros [= <-]. right. right. split; [|done].
    repeat first [apply list_elem_of_here | apply list_elem_of_further]. }
  destruct (_ && bool_decide ("readonly" = k)) eqn:Hr.
  { apply andb_true_iff in Hr as [_ <-%bool_decide_eq_true].
    intros [= <-]. right. right. split; [|done].
    repeat first [apply list_elem_of_here | apply list_elem_of_further]. }
  destruct (_ && bool_decide ("maxlength" = k)) eqn:Hm.
  { apply andb_true_iff in Hm as [Hg <-%bool_decide_eq_true].
    apply andb_true_iff in Hg as [_ Hlen%bool_decide_eq_true].
    destruct (column_type_length c) as [n|]; [|done].
    intros [= <-]. right. left. eauto. }
  intros [<- <-]%lookup_singleton_Some. left. split; [done|].
  exists t. split; [done|]. by eapply conversions_get_range.
Qed.

(** X3: every rule of a generated schema is one of five kinds: [type],
    with the value integer, string or boolean; [maxlength], with an
    integer; and [readonly], [required] and [unique], which are [True]
    whenever they are there.  No rule-set has a [default] rule, nor a
    rule with the value [False]. *)
Theorem generate_schema_rule_kinds model_class include exclude exclude_rules
  schema name prop k x :
  generate_schema model_class include exclude exclude_rules = Ok schema ->
  schema !! name = Some prop ->
  prop !! k = Some x ->
  (k = "type" /\ exists t, x = VStr t /\ t ∈ ["integer"; "string"; "boolean"])
  \/ (k = "maxlength" /\ exists n, x = VInt n)
  \/ (k ∈ ["readonly"; "required"; "unique"] /\ x = VBool true).
Proof.
  unfold generate_schema. intros Hgen Hl Hk.
  destruct (loop_lookup_inv _ _ _ _ _ _ _ _ Hgen Hl)
    as [Hempty|(c & Hin & Hn & Hsel & Hr)].
  - by rewrite lookup_empty in Hempty.
  - by eapply column_rules_lookup.
Qed.

Lemma generate_schema_rule_kinds_witness :
  ("maxlength" = "type"
   /\ exists t, VInt 120 = VStr t /\ t ∈ ["integer"; "string"; "boolean"])
  \/ ("maxlength" = "maxlength" /\ exists n, VInt 120 = VInt n)
  \/ ("maxlength" ∈ ["readonly"; "required"; "unique"] /\ VInt 120 = VBool true).
Proof.
  exact (generate_schema_rule_kinds User [] [] None user_schema "email"
           (<["unique" := VBool true]> (<["required" := VBool true]>
              (<["maxlength" := VInt 120]> {[ "type" := VStr "string" ]})))
           "maxlength" (VInt 120) eq_refl eq_refl eq_refl).
Defined.

Lemma column_rules_readonly exclude_rules c prop :
  column_rules exclude_rules c = Ok prop ->
  prop !! "readonly" =
    if negb (py_in "readonly" exclude_rules) && column_primary_key c
    then Some (VBool true) else None.
Proof.
  unfold column_rules. destruct (conversions_get _ _) as [t|]; [|done].
  intros [= <-]. cbv zeta.
  rewrite !lookup_cond_insert_ne by done.
  rewrite lookup_cond_insert_eq.
  rewrite lookup_cond_insert_ne by done.
  by rewrite lookup_singleton_ne.
Qed.

Lemma column_rules_unique exclude_rules c prop :
  column_rules exclude_rules c = Ok prop ->
  prop !! "unique" =
    if negb (py_in "unique" exclude_rules) && unique_truthy (column_unique c)
    then Some (VBool true) else None.
Proof.
  unfold column_rules. destruct (conversions_get _ _) as [t|]; [|done].
  intros [= <-]. cbv zeta.
  rewrite lookup_cond_insert_eq.
  rewrite !lookup_cond_insert_ne by done.
  by rewrite lookup_singleton_ne.
Qed.

(** X4: with distinct column names, the rule-set of a selected column has
    [readonly] exactly when [readonly] is not excluded and the column is a
    primary key, and [unique] exactly when [unique] is not excluded and
    the column is declared [unique=True]; a column declared [unique=False]
    or left undeclared gets no [unique] rule. *)
Theorem generate_schema_readonly_unique model_class include exclude exclude_rules
  schema c :
  NoDup (column_name <$> mapper_c model_class) ->
  generate_schema model_class include exclude exclude_rules = Ok schema ->
  c ∈ mapper_c model_class ->
  selected include exclude (column_name c) = true ->
  exists prop,
    schema !! column_name c = Some prop
    /\ (is_Some (prop !! "readonly")
        <-> ("readonly" ∉ default [] exclude_rules) /\ column_primary_key c = true)
    /\ (is_Some (prop !! "unique")
        <-> ("unique" ∉ default [] exclude_rules) /\ column_unique c = Some true).
Proof.
  unfold generate_schema. intros Hnd Hgen Hin Hsel.
  destruct (loop_lookup_selected _ _ _ _ _ _ _ Hnd Hgen Hin Hsel) as (prop & Hr & Hl).
  exists prop. split; [done|].
  rewrite (column_rules_readonly _ _ _ Hr), (column_rules_unique _ _ _ Hr).
  rewrite <- !py_in_false. split.
  - destruct (py_in "readonly" _), (column_primary_key c); simpl;
      split; try done; try (by intros [? ?]); by intros [? ?].
  - destruct (py_in "unique" _), (column_unique c) as [[|]|]; simpl;
      split; try done; try (by intros [? ?]); by intros [? ?].
Qed.

Lemma generate_schema_readonly_unique_witness :
  exists prop,
    user_schema !! "email" = Some prop
    /\ (is_Some (prop !! "readonly")
        <-> ("readonly" ∉ []) /\ false = true)
    /\ (is_Some (prop !! "unique")
        <-> ("unique" ∉ []) /\ Some true = Some true).
Proof.
  apply (generate_schema_readonly_unique User [] [] None user_schema email_column).
  - apply (bool_decide_unpack _). reflexivity.
  - reflexivity.
  - apply list_elem_of_further, list_elem_of_here.
  - reflexivity.
Defined.

(** ** import_into_sqla_object: repetition and composition *)

Lemma model_of_eq {O : Type} (a b : model_of O) :
  model_mapper a = model_mapper b ->
  model_persistent a = model_persistent b ->
  model_attrs a = model_attrs b ->
  model_unloaded a = model_unloaded b ->
  model_relationships a = model_relationships b ->
  model_export_data a = model_export_data b ->
  a = b.
Proof. destruct a, b; simpl; intros; by subst. Qed.

(** The attributes of the instance after the import. *)
Lemma import_attrs {O : Type} (m : model_of O) data key :
  model_attrs (import_into_sqla_object m data) !! key =
    if py_in key (dict_keys data) && in_mapper_c key (model_mapper m)
    then Ok <$> dict_get key data
    else model_attrs m !! key.
Proof.
  unfold import_into_sqla_object. rewrite import_loop_attrs.
  destruct (py_in key (dict_keys data)) eqn:Hin; simpl; [|done].
  destruct (in_mapper_c key (model_mapper m)); [|done].
  apply py_in_true, dict_get_is_Some in Hin as [v ->]. done.
Qed.

Lemma import_frame {O : Type} (m : model_of O) data :
  model_mapper (import_into_sqla_object m data) = model_mapper m
  /\ model_persistent (import_into_sqla_object m data) = model_persistent m
  /\ model_unloaded (import_into_sqla_object m data) = model_unloaded m
  /\ model_relationships (import_into_sqla_object m data) = model_relationships m
  /\ model_export_data (import_into_sqla_object m data) = model_export_data m.
Proof. apply import_loop_frame. Qed.

(** X5: importing a document a second time changes nothing: the instance
    after two imports of the same document is the instance after one. *)
Theorem import_into_sqla_object_twice {O : Type} (m : model_of O) data :
  import_into_sqla_object (import_into_sqla_object m data) data
  = import_into_sqla_object m data.
Proof.
  destruct (import_frame m data) as (Hm & ? & ? & ? & ?).
  destruct (import_frame (import_into_sqla_object m data) data) as (? & ? & ? & ? & ?).
  apply model_of_eq; try done.
  apply map_eq. intros key. rewrite import_attrs, Hm.
  destruct (py_in key (dict_keys data) && in_mapper_c key (model_mapper m)) eqn:Hc;
    [|done].
  by rewrite import_attrs, Hc.
Qed.

(** X6: a second document wins where the two overlap: after importing
    [data1] and then [data2], an attribute that is a key of [mapper.c]
    reads the value of [data2] when [data2] has the key, else the value of
    [data1] when [data1] has it, else it is as it was; an attribute that is
    no key of [mapper.c] is as it was. *)
Theorem import_into_sqla_object_then {O : Type} (m : model_of O) data1 data2 key :
  model_attrs (import_into_sqla_object (import_into_sqla_object m data1) data2) !! key =
    if in_mapper_c key (model_mapper m) then
      match dict_get key data2, dict_get key data1 with
      | Some v, _ => Some (Ok v)
      | None, Some v => Some (Ok v)
      | None, None => model_attrs m !! key
      end
    else model_attrs m !! key.
Proof.
  destruct (import_frame m data1) as (Hm & _).
  rewrite !import_attrs, Hm.
  destruct (in_mapper_c key (model_mapper m)); rewrite ?andb_false_r; [|done].
  rewrite !andb_true_r.
  destruct (dict_get key data2) as [v2|] eqn:H2.
  - assert (py_in key (dict_keys data2) = true) as ->; [|done].
    apply py_in_true, dict_get_is_Some. by rewrite H2.
  - assert (py_in key (dict_keys data2) = false) as ->.
    { by apply py_in_false, dict_get_None. }
    destruct (dict_get key data1) as [v1|] eqn:H1.
    + assert (py_in key (dict_keys data1) = true) as ->; [|done].
      apply py_in_true, dict_get_is_Some. by rewrite H1.
    + assert (py_in key (dict_keys data1) = false) as ->; [|done].
      by apply py_in_false, dict_get_None.
Qed.

(** The class maps the column [id] under the attribute [ident]: the
    document's [ident] is assigned, its [id] is not. *)
Example import_into_sqla_object_ticket :
  model_attrs (import_into_sqla_object
                 (import_into_sqla_object ticket [("id", VInt 9); ("ident", VInt 8)])
                 [("name", VStr "u")])
  = attrs_of [("ident", VInt 8); ("name", VStr "u")].
Proof. reflexivity. Qed.

(** X7: when the class maps every column under the column's own name and
    the schema is generated from the class with no [include] and no
    [exclude], the keys of the schema are the keys of [mapper.c], and the
    import assigns exactly the keys of the document that the schema has. *)
Theorem import_into_sqla_object_default_schema {O : Type} (m : model_of O)
  exclude_rules schema data key :
  mapper_c_keys (model_mapper m) = column_name <$> mapper_c (model_mapper m) ->
  generate_schema (model_mapper m) [] [] exclude_rules = Ok schema ->
  model_attrs (import_into_sqla_object m data) !! key =
    if py_in key (dict_keys data) && bool_decide (is_Some (schema !! key))
    then Ok <$> dict_get key data
    else model_attrs m !! key.
Proof.
  unfold generate_schema. intros Hkeys Hgen. rewrite import_attrs.
  assert (in_mapper_c key (model_mapper m) = bool_decide (is_Some (schema !! key)))
    as ->; [|done].
  unfold in_mapper_c, py_in. rewrite Hkeys. apply bool_decide_ext. split.
  - intros Hin. eapply loop_lookup_is_Some; [done|]. right. split; [done|].
    apply selected_true. split; [by left|apply not_elem_of_nil].
  - intros [prop Hl].
    destruct (loop_lookup_inv _ _ _ _ _ _ _ _ Hgen Hl)
      as [Hempty|(c & Hin & Hn & _)].
    + by rewrite lookup_empty in Hempty.
    + apply list_elem_of_fmap. by exists c.
Qed.

Lemma import_into_sqla_object_default_schema_witness :
  model_attrs (import_into_sqla_object account [("name", VStr "bob"); ("nick", VStr "b")])
    !! "name" =
    if py_in "name" (dict_keys [("name", VStr "bob"); ("nick", VStr "b")])
       && bool_decide (is_Some (from_ok ∅ (generate_schema Account [] [] None) !! "name"))
    then Ok <$> dict_get "name" [("name", VStr "bob"); ("nick", VStr "b")]
    else model_attrs account !! "name".
Proof.
  exact (import_into_sqla_object_default_schema account None _
           [("name", VStr "bob"); ("nick", VStr "b")] "name" eq_refl eq_refl).
Defined.

(** ** ExportData: keys, values and lists *)

Lemma dict_set_fresh {A : Type} (key : string) (v : A) (d : list (string * A)) :
  key ∉ dict_keys d -> dict_set key v d = d ++ [(key, v)].
Proof.
  unfold dict_keys. induction d as [|[k w] d IH]; intros Hn; simpl; [done|].
  rewrite fmap_cons in Hn. apply not_elem_of_cons in Hn as [Hne Hn]. simpl in Hne.
  rewrite bool_decide_eq_false_2 by done. by rewrite IH.
Qed.

(** With distinct names, the column loop, when it returns, has added the
    selected names in the order of the columns. *)
Lemma export_columns_keys_exact obj persisted include exclude columns data data' :
  NoDup (column_name <$> columns) ->
  (forall name, name ∈ column_name <$> columns -> name ∉ dict_keys data) ->
  export_columns obj persisted include exclude columns data = Ok data' ->
  dict_keys data'
  = dict_keys data
    ++ List.filter (column_selected include exclude) (column_name <$> columns).
Proof.
  revert data. induction columns as [|c rest IH]; intros data Hnd Hfresh.
  - simpl. intros [= <-]. by rewrite app_nil_r.
  - rewrite fmap_cons in Hnd. apply NoDup_cons in Hnd as [Hc Hnd].
    assert (column_name c ∉ dict_keys data) as Hcd.
    { apply Hfresh. rewrite fmap_cons. apply list_elem_of_here. }
    rewrite export_columns_cons, fmap_cons. simpl.
    destruct (column_selected include exclude (column_name c)).
    + destruct (getattr obj (column_name c)) as [live|e]; simpl; [|done].
      intros H. rewrite (IH _ Hnd) with (2 := H).
      * rewrite dict_set_fresh by done. unfold dict_keys.
        by rewrite fmap_app, <- app_assoc.
      * intros name Hin. rewrite dict_keys_set. intros [->|Hd]; [done|].
        revert Hd. apply Hfresh. rewrite fmap_cons. by apply list_elem_of_further.
    + apply IH; [done|]. intros name Hin. apply Hfresh.
      rewrite fmap_cons. by apply list_elem_of_further.
Qed.

(** The relationship loop keeps the keys it finds and adds the keys it
    visits. *)
Lemma export_relationships_keys_mono rec unloaded exclude relationships data data' key :
  export_relationships rec unloaded exclude relationships data = Ok data' ->
  key ∈ dict_keys data
  \/ (key ∈ relationships.*1 /\ (key ∉ unloaded) /\ (key ∉ exclude)) ->
  key ∈ dict_keys data'.
Proof.
  revert data. induction relationships as [|[k o] rest IH]; intros data.
  - simpl. intros [= <-] [?|[Hin _]]; [done|]. by apply elem_of_nil in Hin.
  - rewrite export_relationships_cons, fmap_cons, elem_of_cons. simpl.
    destruct (negb (py_in k unloaded) && negb (py_in k exclude)) eqn:Hg.
    + destruct (relationship_export rec o) as [v|e]; simpl; [|done].
      intros H Hkey. apply (IH _ H). rewrite dict_keys_set.
      destruct Hkey as [?|[[->|?] ?]]; auto.
    + intros H Hkey. apply (IH _ H).
      destruct Hkey as [?|[[->|?] [Hu He]]]; auto.
      apply py_in_false in Hu, He. by rewrite Hu, He in Hg.
Qed.

(** X8: no key that the caller's [exclude] or the exporter's own exclusion
    list names is a key of the export of an instance, be it a column or a
    relationship, and whatever [include] says. *)
Theorem export_excluded_keys self m include exclude v :
  ExportData_call self (OModel m) include exclude = Ok v ->
  exists data, v = VDict data
    /\ forall key, key ∈ exclude ++ self_exclude self -> key ∉ dict_keys data.
Proof.
  intros H. destruct (ExportData_call_model_keys _ _ _ _ _ H) as (data & -> & Hkeys).
  exists data. split; [done|]. intros key Hex Hin.
  destruct (Hkeys _ Hin) as [[_ Hsel]|(_ & _ & _ & Hne)]; [|done].
  apply column_selected_true in Hsel as [_ Hne]. done.
Qed.

Lemma export_excluded_keys_witness :
  exists data, VDict [("id", VInt 1); ("org_id", VInt 1)] = VDict data
    /\ forall key, key ∈ ["name"] ++ [] -> key ∉ dict_keys data.
Proof.
  exact (export_excluded_keys {| self_exclude := [] |} account [] ["name"] _ eq_refl).
Defined.

(** X9: the export of an instance that is not persisted returns when the
    selected columns can be read on it, under their column names, and
    (with distinct column names) its keys are then the selected column
    names in the order of the columns: relationships are left out, loaded
    or not. *)
Theorem export_unpersisted_keys self m include exclude :
  model_persistent m = false ->
  NoDup (column_name <$> mapper_c (model_mapper m)) ->
  (forall c, c ∈ mapper_c (model_mapper m) ->
     column_selected include (exclude ++ self_exclude self) (column_name c) = true ->
     is_ok (getattr m (column_name c)) = true) ->
  exists data,
    ExportData_call self (OModel m) include exclude = Ok (VDict data)
    /\ dict_keys data
       = List.filter (column_selected include (exclude ++ self_exclude self))
           (column_name <$> mapper_c (model_mapper m)).
Proof.
  intros Hp Hnd Hread. rewrite ExportData_call_model, Hp. cbv zeta.
  destruct (export_columns_ok m false include (exclude ++ self_exclude self)
              (mapper_c (model_mapper m)) [] Hread) as [data Hcols].
  rewrite Hcols. exists data. split; [done|].
  rewrite (export_columns_keys_exact _ _ _ _ _ _ _ Hnd) with (2 := Hcols); [done|].
  intros name _. apply not_elem_of_nil.
Qed.

Lemma export_unpersisted_keys_witness :
  exists data,
    export_from_sqla_object (OModel new_user) ["email"; "active"; "id"] ["email"]
    = Ok (VDict data)
    /\ dict_keys data = ["id"; "active"].
Proof.
  apply (export_unpersisted_keys {| self_exclude := ["org_id"] |} new_user
           ["email"; "active"; "id"] ["email"] eq_refl).
  - apply (bool_decide_unpack _). reflexivity.
  - intros c Hin _.
    repeat (apply elem_of_cons in Hin as [->|Hin]; [reflexivity|]).
    by apply elem_of_nil in Hin.
Defined.

(** A column that the class maps under another attribute name cannot be
    read under its column name: the export raises the AttributeError. *)
Example export_ticket :
  export_from_sqla_object (OModel ticket) [] []
  = Raise (AttributeError no_such_attribute)
  /\ export_from_sqla_object (OModel ticket) ["name"] []
     = Ok (VDict [("name", VStr "t")]).
Proof. split; reflexivity. Qed.

(** X10: in the export of a persisted instance (column names distinct), a
    selected column that shares its name with no relationship has the
    live value, the value read on the instance, [None] included: a default
    is never put in its place. *)
Theorem export_persisted_column self m include exclude v c :
  model_persistent m = true ->
  NoDup (column_name <$> mapper_c (model_mapper m)) ->
  c ∈ mapper_c (model_mapper m) ->
  column_selected include (exclude ++ self_exclude self) (column_name c) = true ->
  column_name c ∉ (model_relationships m).*1 ->
  ExportData_call self (OModel m) include exclude = Ok v ->
  exists data live, v = VDict data
    /\ getattr m (column_name c) = Ok live
    /\ dict_get (column_name c) data = Some live.
Proof.
  intros Hp Hnd Hin Hsel Hrel
    (columns_data & data & Hcols & -> & Hloop)%ExportData_call_model_inv.
  rewrite Hp in Hcols, Hloop.
  destruct (export_columns_get _ _ _ _ _ _ _ _ Hnd Hin Hsel Hcols) as (live & Hlive & Hget).
  exists data, live. split; [done|]. split; [done|].
  by rewrite (export_relationships_get_other _ _ _ _ _ _ _ Hrel Hloop).
Qed.

Lemma export_persisted_column_witness :
  exists data live,
    VDict [("id", VInt 3); ("email", VNone); ("active", VNone)] = VDict data
    /\ getattr stored_user "active" = Ok live
    /\ dict_get "active" data = Some live.
Proof.
  apply (export_persisted_column {| self_exclude := ["org_id"] |} stored_user [] []
           _ active_column).
  - reflexivity.
  - apply (bool_decide_unpack _). reflexivity.
  - apply list_elem_of_further, list_elem_of_further, list_elem_of_here.
  - reflexivity.
  - apply not_elem_of_nil.
  - reflexivity.
Defined.

(** X11: what is imported is what is exported: after a document is
    imported into a persisted instance (column names distinct), the export
    of the instance, when it returns, has, under every selected column
    name that is a key of the document and a key of [mapper.c], and no
    relationship key, the value the document has. *)
Theorem import_then_export self m data include exclude v c :
  model_persistent m = true ->
  NoDup (column_name <$> mapper_c (model_mapper m)) ->
  c ∈ mapper_c (model_mapper m) ->
  column_name c ∈ mapper_c_keys (model_mapper m) ->
  column_name c ∈ dict_keys data ->
  column_selected include (exclude ++ self_exclude self) (column_name c) = true ->
  column_name c ∉ (model_relationships m).*1 ->
  ExportData_call self (OModel (import_into_sqla_object m data)) include exclude = Ok v ->
  exists exported, v = VDict exported
    /\ dict_get (column_name c) exported = dict_get (column_name c) data.
Proof.
  intros Hp Hnd Hin Hattr Hkey Hsel Hrel
    (columns_data & exported & Hcols & -> & Hloop)%ExportData_call_model_inv.
  destruct (import_frame m data) as (Hm & Hpers & _ & Hrels & _).
  rewrite Hpers, Hp, Hm in Hcols. rewrite Hpers, Hp, Hrels in Hloop.
  destruct (export_columns_get _ _ _ _ _ _ _ _ Hnd Hin Hsel Hcols) as (live & Hlive & Hget).
  exists exported. split; [done|].
  rewrite (export_relationships_get_other _ _ _ _ _ _ _ Hrel Hloop), Hget.
  unfold getattr in Hlive. rewrite import_attrs in Hlive.
  assert (py_in (column_name c) (dict_keys data) = true) as Hd by by apply py_in_true.
  assert (in_mapper_c (column_name c) (model_mapper m) = true) as Hc
    by by apply py_in_true.
  rewrite Hd, Hc in Hlive. simpl in Hlive.
  apply dict_get_is_Some in Hkey as [w Hw]. rewrite Hw in Hlive |- *.
  simpl in Hlive. by injection Hlive as <-.
Qed.

Lemma import_then_export_witness :
  exists exported,
    VDict [("id", VInt 1); ("name", VStr "bob")] = VDict exported
    /\ dict_get "name" exported = dict_get "name" [("name", VStr "bob"); ("nick", VStr "b")].
Proof.
  apply (import_then_export {| self_exclude := ["org_id"] |} account
           [("name", VStr "bob"); ("nick", VStr "b")] [] [] _ name_column).
  - reflexivity.
  - apply (bool_decide_unpack _). reflexivity.
  - apply list_elem_of_further, list_elem_of_further, list_elem_of_here.
  - apply list_elem_of_further, list_elem_of_further, list_elem_of_here.
  - apply list_elem_of_here.
  - reflexivity.
  - apply not_elem_of_nil.
  - reflexivity.
Defined.

(** X12: [include] selects columns only: in the export of a persisted
    instance every loaded relationship that is not excluded is a key,
    whether [include] names it or not. *)
Theorem export_include_keeps_relationships self m include exclude v key rproperty :
  model_persistent m = true ->
  (key, rproperty) ∈ model_relationships m ->
  key ∉ model_unloaded m ->
  key ∉ exclude ++ self_exclude self ->
  ExportData_call self (OModel m) include exclude = Ok v ->
  exists data, v = VDict data /\ key ∈ dict_keys data.
Proof.
  intros Hp Hin Hload Hex
    (columns_data & data & _ & -> & Hloop)%ExportData_call_model_inv.
  rewrite Hp in Hloop. exists data. split; [done|].
  eapply export_relationships_keys_mono; [done|]. right.
  split; [|done]. apply list_elem_of_fmap. by exists (key, rproperty).
Qed.

Lemma export_include_keeps_relationships_witness :
  exists data,
    VDict [("id", VInt 1); ("posts", VNone); ("profile", VNone)] = VDict data
    /\ "posts" ∈ dict_keys data.
Proof.
  apply (export_include_keeps_relationships {| self_exclude := ["org_id"] |}
           (author (OList []) ONone) ["id"] [] _ "posts" (OList [])).
  - reflexivity.
  - apply list_elem_of_here.
  - apply (bool_decide_unpack _). reflexivity.
  - apply (bool_decide_unpack _). reflexivity.
  - reflexivity.
Defined.

(** X13: a related instance is exported with the default [include] and
    [exclude], not with the caller's: under the key of a loaded to-one
    relationship that is not excluded (relationship keys distinct) the
    export has what the related instance's own [export_data()] returns
    when it has one, and what [__call__] returns for it without
    [include] and [exclude] when it has none. *)
Theorem export_to_one self m include exclude v key related :
  model_persistent m = true ->
  NoDup (model_relationships m).*1 ->
  (key, OModel related) ∈ model_relationships m ->
  key ∉ model_unloaded m ->
  key ∉ exclude ++ self_exclude self ->
  ExportData_call self (OModel m) include exclude = Ok v ->
  exists data w, v = VDict data
    /\ dict_get key data = Some w
    /\ match model_export_data related with
       | Some export_data => export_data [] [] = Ok w
       | None => ExportData_call self (OModel related) [] [] = Ok w
       end.
Proof.
  intros Hp Hnd Hin Hload Hex
    (columns_data & data & _ & -> & Hloop)%ExportData_call_model_inv.
  rewrite Hp in Hloop.
  destruct (export_relationships_get _ _ _ _ _ _ _ _ Hnd Hin Hload Hex Hloop)
    as (w & Hw & Hget).
  exists data, w. split; [done|]. split; [done|].
  unfold relationship_export in Hw.
  change (export_data_of (OModel related)) with (model_export_data related) in Hw.
  by destruct (model_export_data related).
Qed.

Lemma export_to_one_witness :
  exists data w,
    VDict [("posts", VNone); ("profile", VDict [("id", VInt 5); ("name", VStr "me")])]
    = VDict data
    /\ dict_get "profile" data = Some w
    /\ export_from_sqla_object (OModel (post 5 "me")) [] [] = Ok w.
Proof.
  assert (NoDup (model_relationships (author (OList []) (OModel (post 5 "me")))).*1)
    as Hnd.
  { apply (bool_decide_unpack _). exact I. }
  assert ((("profile" : string), OModel (post 5 "me"))
            ∈ model_relationships (author (OList []) (OModel (post 5 "me")))) as Hin.
  { apply list_elem_of_further, list_elem_of_here. }
  assert ("profile" ∉ model_unloaded (author (OList []) (OModel (post 5 "me"))))
    as Hload.
  { apply (bool_decide_unpack _). exact I. }
  assert ("profile" ∉ ["id"; "name"] ++ ["org_id"]) as Hex.
  { apply (bool_decide_unpack _). exact I. }
  exact (export_to_one {| self_exclude := ["org_id"] |}
           (author (OList []) (OModel (post 5 "me"))) [] ["id"; "name"] _
           "profile" (post 5 "me") eq_refl Hnd Hin Hload Hex eq_refl).
Defined.

(** X14: on a list the first element decides.  When it has [export_data],
    the result is the list of what the elements' own [export_data] return,
    and every error on the way, an AttributeError too, is raised as it
    is.  When it has none, every element goes through [__call__], also
    the elements that have an [export_data] of their own. *)
Theorem export_list_first_decides self item rest include exclude :
  ExportData_call self (OList (item :: rest)) include exclude =
    match export_data_of item with
    | Some _ =>
        vs <- custom_exports (item :: rest) include exclude ;; Ok (VList vs)
    | None =>
        vs <- export_each (fun o => ExportData_call self o include exclude) (item :: rest) ;;
        Ok (VList vs)
    end.
Proof.
  rewrite ExportData_call_list.
  change (default ONone (head (item :: rest))) with item.
  unfold has_export_data.
  destruct (export_data_of item) as [f|] eqn:Hf.
  - rewrite bool_decide_eq_true_2 by done.
    destruct (custom_exports (item :: rest) include exclude) as [vs|e]; [done|].
    by destruct e.
  - rewrite bool_decide_eq_false_2 by (by intros [? ?]).
    simpl. by rewrite Hf.
Qed.

(** A post whose [export_data] returns its title alone. *)
Example export_list_mixed :
  let titled := Model Post true (attrs_of [("id", VNone); ("name", VNone)]) [] []
                  (Some (fun _ _ => Ok (VStr "title"))) in
  export_from_sqla_object (OList [OModel titled; OModel (post 1 "a")]) [] []
  = Raise (AttributeError no_export_data)
  /\ export_from_sqla_object (OList [OModel (post 1 "a"); OModel titled]) [] []
     = Ok (VList [VDict [("id", VInt 1); ("name", VStr "a")];
                  VDict [("id", VNone); ("name", VNone)]]).
Proof. split; reflexivity. Qed.

Lemma custom_exports_length items include exclude vs :
  custom_exports items include exclude = Ok vs -> length vs = length items.
Proof.
  intros H%custom_exports_Forall2. by apply Forall2_length in H.
Qed.

Lemma export_each_length rec items vs :
  export_each rec items = Ok vs -> length vs = length items.
Proof.
  intros H%export_each_Forall2. by apply Forall2_length in H.
Qed.

(** X15: what [__call__] returns has the shape of what it was given: a
    list with one entry for each element of a list, a dictionary for an
    instance; for [None] and for any other object it returns nothing. *)
Theorem export_shape self obj include exclude v :
  ExportData_call self obj include exclude = Ok v ->
  match obj with
  | OList items => exists vs, v = VList vs /\ length vs = length items
  | OModel _ => exists data, v = VDict data
  | ONone | ORaw _ => False
  end.
Proof.
  destruct obj as [|w|items|m]; try done.
  - rewrite ExportData_call_list.
    destruct (custom_exports items include exclude) as [vs|e] eqn:Hc.
    + intros [= <-]. exists vs. split; [done|]. by eapply custom_exports_length.
    + destruct e; try done. destruct (has_export_data _); [done|].
      destruct (export_each _ items) as [vs|e] eqn:He; simpl; [|done].
      intros [= <-]. exists vs. split; [done|]. by eapply export_each_length.
  - intros H. destruct (ExportData_call_model_keys _ _ _ _ _ H) as (data & -> & _).
    by exists data.
Qed.

Lemma export_shape_witness :
  exists vs,
    VList [VDict [("id", VInt 1); ("name", VStr "a")];
           VDict [("id", VInt 2); ("name", VStr "b")]] = VList vs
    /\ length vs = length [OModel (post 1 "a"); OModel (post 2 "b")].
Proof.
  exact (export_shape {| self_exclude := ["org_id"] |}
           (OList [OModel (post 1 "a"); OModel (post 2 "b")]) [] [] _ eq_refl).
Defined.

Lemma export_generic_witness :
  exists v,
    export_from_sqla_object
      (OList [OModel (author (OList [OModel (post 7 "hello")]) ONone);
              OModel (post 8 "again")]) ["id"] ["name"] = Ok v.
Proof.
  exact (ExportData_call_generic {| self_exclude := ["org_id"] |}
           (OList [OModel (author (OList [OModel (post 7 "hello")]) ONone);
                   OModel (post 8 "again")]) eq_refl ["id"] ["name"]).
Defined.

(** ** Validator: the errors of the lookup *)

(** X17: on a validator that was given a [model_class], every error that
    [validate] raises is an error the lookup raised, unchanged, for a
    field of the document and its value; [validate] returns when the
    lookup raises for no field of the document. *)
Theorem validate_with_model_class base self document model update query :
  model_class self = Some query ->
  (forall e, validate base self document model update = Raise e ->
     exists field v, (field, v) ∈ document /\ query field v = Raise e)
  /\ ((forall field v, (field, v) ∈ document -> is_ok (query field v) = true) ->
      exists accepted self',
        validate base self document model update = Ok (accepted, self')).
Proof.
  intros Hq. split.
  - intros e. by apply validate_raise_lookup.
  - by apply validate_returns.
Qed.

(** A lookup that fails makes [validate] fail with the lookup's error. *)
Example validate_failing_lookup :
  validate no_other_rules (Validator_init unique_email (Some failing_lookup))
    [("email", VStr "a@b.com")] None false
  = Raise connection_lost.
Proof. reflexivity. Qed.

Lemma validate_with_model_class_witness :
  (forall e,
     validate no_other_rules (Validator_init unique_email (Some one_user))
       [("email", VStr "a@b.com"); ("name", VStr "ann")] None false = Raise e ->
     exists field v,
       (field, v) ∈ [("email", VStr "a@b.com"); ("name", VStr "ann")]
       /\ one_user field v = Raise e)
  /\ ((forall field v,
         (field, v) ∈ [("email", VStr "a@b.com"); ("name", VStr "ann")] ->
         is_ok (one_user field v) = true) ->
      exists accepted self',
        validate no_other_rules (Validator_init unique_email (Some one_user))
          [("email", VStr "a@b.com"); ("name", VStr "ann")] None false
        = Ok (accepted, self')).
Proof.
  exact (validate_with_model_class no_other_rules
           (Validator_init unique_email (Some one_user))
           [("email", VStr "a@b.com"); ("name", VStr "ann")] None false one_user eq_refl).
Defined.
